(** * Warden landing page: the A/B-testing assignment and persistence engine

    A shallow embedding of [src/ab-testing.config.ts] and
    [src/ab-testing.utils.ts]: the static test registry, the weighted /
    hash-based variant selection, the two-tier storage layer
    (localStorage plus a JSON cookie mirror) and the analytics emitter.

    Conventions of the embedding.
    - A JavaScript [number] that is an integer in the source (weights, the
      32-bit hash, millisecond clocks) is a [Z]; the selection scalar
      ([Math.random()] or the hash divided by 2^31) is a rational [Q].  The
      product [random * 100] is taken exactly; for the hash path this is what
      the double arithmetic yields, since the scalar is k / 2^31 with
      |k| <= 2^31.
    - A JavaScript string is a [string]; [charCodeAt] is the code of the
      character, which is exact for strings of code units below 256.
    - A JavaScript object literal is an association list in insertion order;
      [localStorage] is a finite map.
    - Browser state is threaded explicitly: a function of the source that
      reads or writes the browser is a computation in the monad [M], which
      also carries JavaScript exceptions, so that [try]/[catch] is modelled
      as written. *)

From Stdlib Require Import ZArith QArith Lia List Ascii String Bool.
From stdpp Require Import gmap strings list pretty.

Set Warnings "-register-all".

Open Scope Z_scope.
Open Scope string_scope.

(* ================================================================== *)
(** ** JavaScript values and the string primitives the source uses     *)
(* ================================================================== *)

Module JS.

(** Values that [JSON.parse] can produce, plus [undefined]. *)
Inductive value : Type :=
| Undefined
| Null
| Bool (b : bool)
| Num (q : Q)
| Str (s : string)
| Arr (items : list value)
| Obj (props : list (string * value)).

Definition object := list (string * value).

(** [ToBoolean]: what [if (x)], [x && y] and [x || y] test. *)
Definition truthy (v : value) : bool :=
  match v with
  | Undefined | Null => false
  | Bool b => b
  | Num q => negb (Qeq_bool q 0)
  | Str s => negb (String.eqb s EmptyString)
  | Arr _ | Obj _ => true
  end.

(** [a || b]. *)
Definition or (a b : value) : value := if truthy a then a else b.

(** [s === v] for a string [s]. *)
Definition strict_eq_str (s : string) (v : value) : bool :=
  match v with
  | Str s' => String.eqb s s'
  | _ => false
  end.

(** Own-property lookup in an object literal. *)
Fixpoint obj_get (o : object) (k : string) : option value :=
  match o with
  | [] => None
  | (k', v) :: o' => if String.eqb k' k then Some v else obj_get o' k
  end.

(** [o[k] = v] on an object: an existing key keeps its position, a new
    key is appended. *)
Fixpoint obj_set (o : object) (k : string) (v : value) : object :=
  match o with
  | [] => [(k, v)]
  | (k', v') :: o' =>
      if String.eqb k' k then (k', v) :: o' else (k', v') :: obj_set o' k v
  end.

(** [{ ...a, ...b }]: the properties of [b] are assigned onto [a] in
    order, so a key of [b] overrides the same key of [a]. *)
Definition spread (a b : object) : object :=
  fold_left (fun acc kv => obj_set acc (fst kv) (snd kv)) b a.

(** [String.prototype.split] with a non-empty separator.  [skip] counts
    the characters of a matched separator still to be dropped, [cur] is
    the piece being collected. *)
Fixpoint split_aux (sep : string) (skip : nat) (cur : string) (s : string)
  : list string :=
  match s with
  | EmptyString => [cur]
  | String c s' =>
      match skip with
      | S k => split_aux sep k cur s'
      | O =>
          if String.prefix sep s
          then cur :: split_aux sep (String.length sep - 1) EmptyString s'
          else split_aux sep 0 (cur ++ String c EmptyString) s'
      end
  end.

Definition split (s sep : string) : list string :=
  split_aux sep 0 EmptyString s.

(** [str.charCodeAt(i)] for each [i] in turn. *)
Definition charCodes (s : string) : list Z :=
  map (fun c => Z.of_nat (nat_of_ascii c)) (list_ascii_of_string s).

(** [ToInt32]: reduction to a signed 32-bit integer, as the bitwise
    operators perform on their operands. *)
Definition toInt32 (x : Z) : Z := (x + 2 ^ 31) mod 2 ^ 32 - 2 ^ 31.

End JS.

(* ================================================================== *)
(** ** Data model ([ab-testing.config.ts])                             *)
(* ================================================================== *)

Module ABVariant.
Record t : Type := mk {
  id : string;
  name : string;
  weight : Z;
  config : JS.value
}.
End ABVariant.

Module ABTest.
Record t : Type := mk {
  testId : string;
  name : string;
  description : string;
  enabled : bool;
  variants : list ABVariant.t;
  defaultVariant : string;
  startDate : option Z;
  endDate : option Z
}.
End ABTest.

Module Segment.
Record t : Type := mk {
  name : string;
  rules : list JS.value;
  tests : list string
}.
End Segment.

Module ABTestConfig.
Record t : Type := mk {
  enabled : bool;
  cookieName : string;
  cookieExpireDays : Z;
  analyticsEnabled : bool;
  debugMode : bool;
  segments : list (string * Segment.t)
}.
End ABTestConfig.

(** The registry is an object literal keyed by section name;
    [Object.values] enumerates it in insertion order. *)
Definition Registry := list (string * ABTest.t).

Inductive ABAnalyticsEventType : Type :=
| VARIANT_ASSIGNED
| VARIANT_VIEWED
| VARIANT_CONVERSION
| VARIANT_INTERACTION.

Definition eventName (ty : ABAnalyticsEventType) : string :=
  match ty with
  | VARIANT_ASSIGNED => "ab_variant_assigned"
  | VARIANT_VIEWED => "ab_variant_viewed"
  | VARIANT_CONVERSION => "ab_variant_conversion"
  | VARIANT_INTERACTION => "ab_variant_interaction"
  end.

Module ABAnalyticsEvent.
Record t : Type := mk {
  type : ABAnalyticsEventType;
  testId : string;
  variantId : JS.value;
  timestamp : Z;
  metadata : option JS.object
}.
End ABAnalyticsEvent.

(* ================================================================== *)
(** ** The shipped registry and configuration                          *)
(* ================================================================== *)

Definition heroABTest : ABTest.t := {|
  ABTest.testId := "hero-messaging-test";
  ABTest.name := "Hero Section Messaging Test";
  ABTest.description :=
    "Testing different hero messaging approaches for conversion optimization";
  ABTest.enabled := true;
  ABTest.defaultVariant := "original";
  ABTest.variants := [
    {| ABVariant.id := "original";
       ABVariant.name := "Original - Guardian Focus";
       ABVariant.weight := 50;
       ABVariant.config := JS.Obj [
         ("title", JS.Str "Warden: The Shield in the Deep");
         ("subtitle", JS.Str "Mining is still dangerous. We're building guardians who never blink.");
         ("quote", JS.Str "Mining can't be rewritten overnight—but we can begin with intelligence, respect, and armor.");
         ("cta", JS.Obj [("text", JS.Str "Join the Mission"); ("link", JS.Str "#join")])
       ] |};
    {| ABVariant.id := "protective-focus";
       ABVariant.name := "Alternative - Protection Focus";
       ABVariant.weight := 50;
       ABVariant.config := JS.Obj [
         ("title", JS.Str "Warden: The Shield in the Deep");
         ("subtitle", JS.Str "Protecting those who still dare to dig. A new era of mining has begun.");
         ("quote", JS.Str "Mining can't be rewritten overnight—but we can begin with intelligence, empathy, and armor.");
         ("cta", JS.Obj [("text", JS.Str "Join the Mission"); ("link", JS.Str "#join")])
       ] |}
  ];
  ABTest.startDate := None;
  ABTest.endDate := None
|}.

Definition missionABTest : ABTest.t := {|
  ABTest.testId := "mission-approach-test";
  ABTest.name := "Mission Section Approach Test";
  ABTest.description := "Testing different mission messaging approaches";
  ABTest.enabled := true;
  ABTest.defaultVariant := "current";
  ABTest.variants := [
    {| ABVariant.id := "current";
       ABVariant.name := "Current - Statistics Focus";
       ABVariant.weight := 60;
       ABVariant.config := JS.Obj [
         ("problem", JS.Obj [
           ("tagline", JS.Str "⚠️ The Reality Underground");
           ("heading", JS.Str "Mining remains one of the most dangerous occupations worldwide");
           ("stats", JS.Arr [
             JS.Obj [("number", JS.Str "28");
                     ("label", JS.Str "US mining fatalities in 2024 (MSHA)");
                     ("color", JS.Str "red");
                     ("source", JS.Str "MSHA Daily Fatality Report")];
             JS.Obj [("number", JS.Str "2.29");
                     ("label", JS.Str "global TRIFR per 1M hours (ICMM 2024)");
                     ("color", JS.Str "orange");
                     ("source", JS.Str "ICMM Safety Data")]
           ]);
           ("description", JS.Arr [
             JS.Str "Gas leaks. Collapses. Heat. Silence.";
             JS.Str "Behind every verified statistic is a family waiting at the kitchen table. Even with progress, mining workers face risks that demand our attention and protection."
           ]);
           ("quote", JS.Str "We're not trying to replace the miner — we're becoming their shield in the deep.");
           ("solution", JS.Str "Warden is the first AI system built to shield, warn, and remember — before danger strikes.");
           ("context", JS.Str "Based on official 2024 data from MSHA (US) and ICMM (global mining companies representing ~1/3 of industry).")
         ])
       ] |};
    {| ABVariant.id := "aspirational";
       ABVariant.name := "Alternative - Aspirational Focus";
       ABVariant.weight := 40;
       ABVariant.config := JS.Obj [
         ("problem", JS.Obj [
           ("tagline", JS.Str "⚠️ The Reality Underground");
           ("heading", JS.Str "What if we could mine without loss?");
           ("stats", JS.Arr [
             JS.Obj [("number", JS.Str "15,000+");
                     ("label", JS.Str "mining deaths yearly");
                     ("color", JS.Str "red")];
             JS.Obj [("number", JS.Str "60%");
                     ("label", JS.Str "preventable incidents");
                     ("color", JS.Str "orange")]
           ]);
           ("description", JS.Arr [
             JS.Str "We believe no one should die just to earn a living.";
             JS.Str "Earthform is building AI-powered drones that understand danger, protect lives, and keep the earth intact."
           ]);
           ("quote", JS.Str "We respect the minerals — and the people — who make modern life possible.");
           ("solution", JS.Str "Warden is creating a future where mining and human dignity coexist.");
           ("context", JS.Str "Based on global mining safety analysis and industry incident reports.")
         ])
       ] |}
  ];
  ABTest.startDate := None;
  ABTest.endDate := None
|}.

Definition ctaABTest : ABTest.t := {|
  ABTest.testId := "cta-messaging-test";
  ABTest.name := "Call-to-Action Messaging Test";
  ABTest.description :=
    "Testing different CTA button text and messaging for conversion";
  ABTest.enabled := true;
  ABTest.defaultVariant := "mission-focus";
  ABTest.variants := [
    {| ABVariant.id := "mission-focus";
       ABVariant.name := "Mission Focus";
       ABVariant.weight := 33;
       ABVariant.config := JS.Obj [
         ("heading", JS.Str "Join the Mission");
         ("subtitle", JS.Str "Help us build AI systems that protect lives and honor the Earth.");
         ("form", JS.Obj [("submitText", JS.Str "Back the Mission")])
       ] |};
    {| ABVariant.id := "tech-focus";
       ABVariant.name := "Technology Focus";
       ABVariant.weight := 33;
       ABVariant.config := JS.Obj [
         ("heading", JS.Str "See Our Technology");
         ("subtitle", JS.Str "Discover how AI-powered guardians are revolutionizing mining safety.");
         ("form", JS.Obj [("submitText", JS.Str "Learn More")])
       ] |};
    {| ABVariant.id := "community-focus";
       ABVariant.name := "Community Focus";
       ABVariant.weight := 34;
       ABVariant.config := JS.Obj [
         ("heading", JS.Str "Join Our Community");
         ("subtitle", JS.Str "Be part of the movement to make mining safer for everyone.");
         ("form", JS.Obj [("submitText", JS.Str "Get Involved")])
       ] |}
  ];
  ABTest.startDate := None;
  ABTest.endDate := None
|}.

Definition abTestRegistry : Registry :=
  [("hero", heroABTest); ("mission", missionABTest); ("cta", ctaABTest)].

Definition abTestConfig : ABTestConfig.t := {|
  ABTestConfig.enabled := true;
  ABTestConfig.cookieName := "warden_ab_variants";
  ABTestConfig.cookieExpireDays := 30;
  ABTestConfig.analyticsEnabled := true;
  ABTestConfig.debugMode := false;
  ABTestConfig.segments := [
    ("default",
     {| Segment.name := "Default Segment";
        Segment.rules := [];
        Segment.tests := ["hero-messaging-test"; "mission-approach-test";
                          "cta-messaging-test"] |})
  ]
|}.

(* ================================================================== *)
(** ** Browser state, exceptions and the platform interface            *)
(* ================================================================== *)

(** The exceptions the modelled primitives can raise: [JSON.parse] on a
    malformed text, a property access on [null] or a property write on a
    primitive, and a storage or cookie access the browser refuses. *)
Inductive Exn : Type :=
| SyntaxError
| TypeError
| DOMException.

Inductive Res (A : Type) : Type :=
| Ok (a : A)
| Throw (e : Exn).
Arguments Ok {A} a.
Arguments Throw {A} e.

(** One call of the analytics sink: [window.va(event, type, data)]. *)
Definition VaCall : Type := string * string * JS.object.

Inductive ConsoleEntry : Type :=
| LogEvent (label : string) (event : ABAnalyticsEvent.t)
| LogText (text : string).

Record Env : Type := mkEnv {
  has_window : bool;          (* typeof window !== 'undefined' *)
  has_document : bool;        (* typeof document !== 'undefined' *)
  ls_denied : bool;           (* any use of localStorage throws *)
  ls_full : bool;             (* localStorage.setItem throws (quota) *)
  ls_items : gmap string string;
  cookie_denied : bool;       (* any use of document.cookie throws *)
  document_cookie : string;   (* what the document.cookie getter returns *)
  has_va : bool;              (* window.va is defined *)
  now : Z;                    (* new Date().getTime() *)
  va_calls : list VaCall;
  console_log : list ConsoleEntry;
  console_warn : list (string * option Exn)
}.

Definition set_ls_items (m : gmap string string) (e : Env) : Env :=
  mkEnv (has_window e) (has_document e) (ls_denied e) (ls_full e) m
        (cookie_denied e) (document_cookie e) (has_va e) (now e)
        (va_calls e) (console_log e) (console_warn e).

Definition set_document_cookie (c : string) (e : Env) : Env :=
  mkEnv (has_window e) (has_document e) (ls_denied e) (ls_full e) (ls_items e)
        (cookie_denied e) c (has_va e) (now e)
        (va_calls e) (console_log e) (console_warn e).

Definition push_va_call (c : VaCall) (e : Env) : Env :=
  mkEnv (has_window e) (has_document e) (ls_denied e) (ls_full e) (ls_items e)
        (cookie_denied e) (document_cookie e) (has_va e) (now e)
        (va_calls e ++ [c]) (console_log e) (console_warn e).

Definition push_console_log (c : ConsoleEntry) (e : Env) : Env :=
  mkEnv (has_window e) (has_document e) (ls_denied e) (ls_full e) (ls_items e)
        (cookie_denied e) (document_cookie e) (has_va e) (now e)
        (va_calls e) (console_log e ++ [c]) (console_warn e).

Definition push_console_warn (w : string * option Exn) (e : Env) : Env :=
  mkEnv (has_window e) (has_document e) (ls_denied e) (ls_full e) (ls_items e)
        (cookie_denied e) (document_cookie e) (has_va e) (now e)
        (va_calls e) (console_log e) (console_warn e ++ [w]).

(** Built-ins of the JavaScript platform that the source calls and that
    are not part of the repository.  [JSON_parse] returns [None] where
    [JSON.parse] throws a [SyntaxError]; [cookie_assign old s] is the value
    of the [document.cookie] getter after the assignment
    [document.cookie = s] in a jar whose getter returned [old]. *)
Class Platform : Type := {
  JSON_parse : string -> option JS.value;
  JSON_stringify : JS.value -> string;
  Date_toUTCString : Z -> string;
  cookie_assign : string -> string -> string
}.

(** State and exception monad: the state survives a throw, as the effects
    of a JavaScript block survive the exception that leaves it. *)
Definition M (A : Type) : Type := Env -> Res A * Env.

Definition ret {A} (a : A) : M A := fun e => (Ok a, e).

Definition bind {A B} (m : M A) (k : A -> M B) : M B :=
  fun e =>
    match m e with
    | (Ok a, e') => k a e'
    | (Throw x, e') => (Throw x, e')
    end.

Definition throw {A} (x : Exn) : M A := fun e => (Throw x, e).

Definition try_catch {A} (body : M A) (handler : Exn -> M A) : M A :=
  fun e =>
    match body e with
    | (Ok a, e') => (Ok a, e')
    | (Throw x, e') => handler x e'
    end.

Definition gets {A} (f : Env -> A) : M A := fun e => (Ok (f e), e).

Definition modify (f : Env -> Env) : M unit := fun e => (Ok tt, f e).

Notation "'let!' x ':=' c1 'in' c2" := (bind c1 (fun x => c2))
  (at level 10, x name, c1 at level 100, c2 at level 200).
Notation "'do!' c1 'in' c2" := (bind c1 (fun _ => c2))
  (at level 10, c1 at level 100, c2 at level 200).

(** [if (s)] on a value of type [string | null | undefined]: the string
    when it is truthy (non-empty). *)
Definition truthyStr (o : option string) : option string :=
  match o with
  | Some s => if String.eqb s EmptyString then None else Some s
  | None => None
  end.

(** [o[k]] as an expression.  Own properties of an object are found;
    reading from [null] or [undefined] throws.  Inherited properties, and
    the index and [length] properties of arrays and strings, are not
    modelled: such a read yields [undefined]. *)
Definition get_prop (o : JS.value) (k : string) : M JS.value :=
  match o with
  | JS.Obj props => ret (default JS.Undefined (JS.obj_get props k))
  | JS.Null | JS.Undefined => throw TypeError
  | _ => ret JS.Undefined
  end.

(** [o[k] = v] in module (strict) code: the write throws on [null],
    [undefined] and on a primitive; on an array it creates a property that
    [JSON.stringify] does not serialise. *)
Definition set_prop (o : JS.value) (k : string) (v : JS.value) : M JS.value :=
  match o with
  | JS.Obj props => ret (JS.Obj (JS.obj_set props k v))
  | JS.Arr items => ret (JS.Arr items)
  | _ => throw TypeError
  end.

Definition localStorage_getItem (key : string) : M (option string) :=
  fun e => if ls_denied e then (Throw DOMException, e)
           else (Ok (ls_items e !! key), e).

Definition localStorage_setItem (key value : string) : M unit :=
  fun e => if ls_denied e || ls_full e then (Throw DOMException, e)
           else (Ok tt, set_ls_items (<[key := value]> (ls_items e)) e).

Definition get_document_cookie : M string :=
  fun e => if cookie_denied e then (Throw DOMException, e)
           else (Ok (document_cookie e), e).

Definition console_warn_call (msg : string) (x : option Exn) : M unit :=
  modify (push_console_warn (msg, x)).

(* ================================================================== *)
(** ** The engine ([ab-testing.utils.ts])                              *)
(* ================================================================== *)

(** One round of the loop of [hashStringToNumber]:
    [hash = ((hash << 5) - hash) + char; hash = hash & hash]. *)
Definition hashStep (hash char : Z) : Z :=
  let hash := (JS.toInt32 (Z.shiftl (JS.toInt32 hash) 5) - hash) + char in
  Z.land (JS.toInt32 hash) (JS.toInt32 hash).

(** The value of [hash] when the loop over the code units ends. *)
Definition hashCode (codes : list Z) : Z := fold_left hashStep codes 0.

(** [Math.abs(hash) / Math.pow(2, 31)]. *)
Definition hashToUnit (hash : Z) : Q := Z.abs hash # 2147483648.

Definition hashStringToNumber (str : string) : Q :=
  hashToUnit (hashCode (JS.charCodes str)).

Definition getVariantById (test : ABTest.t) (variantId : JS.value)
  : option ABVariant.t :=
  find (fun v => JS.strict_eq_str (ABVariant.id v) variantId)
       (ABTest.variants test).

Definition getDefaultVariant (test : option ABTest.t) : option ABVariant.t :=
  match test with
  | None => None
  | Some test => getVariantById test (JS.Str (ABTest.defaultVariant test))
  end.

Definition isValidVariant (test : ABTest.t) (variantId : JS.value) : bool :=
  existsb (fun v => JS.strict_eq_str (ABVariant.id v) variantId)
          (ABTest.variants test).

(** The [for] loop of [assignVariantByWeight]; [None] when the loop ends
    without returning. *)
Fixpoint walkVariants (randomPercent : Q) (cumulativeWeight : Z)
  (enabledVariants : list ABVariant.t) : option ABVariant.t :=
  match enabledVariants with
  | [] => None
  | variant :: rest =>
      let cumulativeWeight := cumulativeWeight + ABVariant.weight variant in
      if Qle_bool randomPercent (inject_Z cumulativeWeight)
      then Some variant
      else walkVariants randomPercent cumulativeWeight rest
  end.

(** The selection scalar: the hash of [userId + testId] when [userId] is
    truthy, else the value [Math.random()] returns ([rnd]). *)
Definition selectionScalar (rnd : Q) (test : ABTest.t) (userId : option string)
  : Q :=
  match truthyStr userId with
  | Some userId => hashStringToNumber (userId ++ ABTest.testId test)
  | None => rnd
  end.

Definition assignVariantByWeight (rnd : Q) (test : ABTest.t)
  (userId : option string) : option ABVariant.t :=
  let enabledVariants :=
    List.filter (fun v => Z.ltb 0 (ABVariant.weight v))
                (ABTest.variants test) in
  if (length enabledVariants =? 0)%nat then getDefaultVariant (Some test)
  else
    let random := selectionScalar rnd test userId in
    let randomPercent := (random * 100)%Q in
    match walkVariants randomPercent 0 enabledVariants with
    | Some variant => Some variant
    | None => head enabledVariants
    end.

(** What [getABTestDebugInfo] returns inside the browser. *)
Module ABTestDebugInfo.
Record t : Type := mk {
  config : ABTestConfig.t;
  tests : Registry;
  currentVariants : JS.object;
  cookies : option string
}.
End ABTestDebugInfo.

Section Engine.

Context {platform : Platform}.
Variable abTestConfig : ABTestConfig.t.
Variable abTestRegistry : Registry.

Definition getTestByIdFromRegistry (testId : string) : option ABTest.t :=
  find (fun test => String.eqb (ABTest.testId test) testId)
       (map snd abTestRegistry).

(* ----- cookie utilities ----- *)

Definition getCookie (name : string) : M (option string) :=
  fun e =>
    if negb (has_document e) then (Ok None, e)
    else
      (let! cookie := get_document_cookie in
       let value := "; " ++ cookie in
       let parts := JS.split value ("; " ++ name ++ "=") in
       if (length parts =? 2)%nat
       then ret (truthyStr (last parts ≫= fun p => head (JS.split p ";")))
       else ret None) e.

Definition setCookie (name value : string) (days : Z) : M unit :=
  fun e =>
    if negb (has_document e) then (Ok tt, e)
    else
      (let! expires := gets (fun e => now e + days * 24 * 60 * 60 * 1000) in
       let assigned :=
         name ++ "=" ++ value ++ ";expires=" ++ Date_toUTCString expires
              ++ ";path=/" in
       let! cookie := get_document_cookie in
       modify (set_document_cookie (cookie_assign cookie assigned))) e.

(* ----- storage utilities ----- *)

Definition getStoredVariant (testId : string) : M JS.value :=
  fun e =>
    if negb (has_window e) then (Ok JS.Null, e)
    else
      try_catch
        (let! stored := localStorage_getItem ("ab_" ++ testId) in
         match truthyStr stored with
         | Some stored => ret (JS.Str stored)
         | None =>
             let! cookieValue := getCookie (ABTestConfig.cookieName abTestConfig) in
             match truthyStr cookieValue with
             | Some cookieValue =>
                 match JSON_parse cookieValue with
                 | Some variants =>
                     let! v := get_prop variants testId in
                     ret (JS.or v JS.Null)
                 | None => throw SyntaxError
                 end
             | None => ret JS.Null
             end
         end)
        (fun x =>
           do! console_warn_call "Error getting stored AB variant:" (Some x) in
           ret JS.Null)
        e.

Definition storeVariant (testId variantId : string) : M unit :=
  fun e =>
    if negb (has_window e) then (Ok tt, e)
    else
      try_catch
        (do! localStorage_setItem ("ab_" ++ testId) variantId in
         let! cookieValue := getCookie (ABTestConfig.cookieName abTestConfig) in
         let! variants :=
           match truthyStr cookieValue with
           | Some cookieValue =>
               try_catch
                 (match JSON_parse cookieValue with
                  | Some variants => ret variants
                  | None => throw SyntaxError
                  end)
                 (fun _ => ret (JS.Obj []))
           | None => ret (JS.Obj [])
           end in
         let! variants := set_prop variants testId (JS.Str variantId) in
         setCookie (ABTestConfig.cookieName abTestConfig)
                   (JSON_stringify variants)
                   (ABTestConfig.cookieExpireDays abTestConfig))
        (fun x => console_warn_call "Error storing AB variant:" (Some x))
        e.

(* ----- analytics utilities ----- *)

Definition trackAnalyticsEvent (type : ABAnalyticsEventType)
  (testId : string) (variantId : JS.value) (metadata : option JS.object)
  : M unit :=
  fun e =>
    if negb (ABTestConfig.analyticsEnabled abTestConfig) then (Ok tt, e)
    else
      (let! timestamp := gets now in
       let event :=
         ABAnalyticsEvent.mk type testId variantId timestamp metadata in
       do! (if ABTestConfig.debugMode abTestConfig
            then modify (push_console_log (LogEvent "[AB Test]" event))
            else ret tt) in
       let! sink := gets (fun e => has_window e && has_va e) in
       if sink
       then modify (push_va_call
              ("track", eventName type,
               JS.spread [("test_id", JS.Str testId); ("variant_id", variantId)]
                         (default [] metadata)))
       else ret tt) e.

Definition trackConversion (testId : string) (conversionType : option string)
  (metadata : option JS.object) : M unit :=
  let conversionType := default "default" conversionType in
  let! variant := getStoredVariant testId in
  if JS.truthy variant
  then trackAnalyticsEvent VARIANT_CONVERSION testId variant
         (Some (JS.spread [("conversion_type", JS.Str conversionType)]
                          (default [] metadata)))
  else ret tt.

Definition trackInteraction (testId : string) (interactionType : string)
  (metadata : option JS.object) : M unit :=
  let! variant := getStoredVariant testId in
  if JS.truthy variant
  then trackAnalyticsEvent VARIANT_INTERACTION testId variant
         (Some (JS.spread [("interaction_type", JS.Str interactionType)]
                          (default [] metadata)))
  else ret tt.

(* ----- variant selection ----- *)

(** [rnd] is the value [Math.random()] returns if this call reaches it. *)
Definition getVariant (rnd : Q) (testId : string) (userId : option string)
  : M (option ABVariant.t) :=
  let test := getTestByIdFromRegistry testId in
  match test with
  | None => ret (getDefaultVariant test)
  | Some test' =>
      if negb (ABTest.enabled test') || negb (ABTestConfig.enabled abTestConfig)
      then ret (getDefaultVariant test)
      else
        let! storedVariant := getStoredVariant testId in
        if JS.truthy storedVariant && isValidVariant test' storedVariant
        then
          do! trackAnalyticsEvent VARIANT_VIEWED testId storedVariant None in
          ret (getVariantById test' storedVariant)
        else
          match assignVariantByWeight rnd test' userId with
          | Some selectedVariant =>
              do! storeVariant testId (ABVariant.id selectedVariant) in
              do! trackAnalyticsEvent VARIANT_ASSIGNED testId
                    (JS.Str (ABVariant.id selectedVariant)) None in
              ret (Some selectedVariant)
          | None => ret (getDefaultVariant test)
          end
  end.

Definition getVariantConfig (rnd : Q) (testId : string)
  (userId : option string) : M JS.value :=
  let! variant := getVariant rnd testId userId in
  ret (JS.or (default JS.Undefined (ABVariant.config <$> variant)) JS.Null).

Definition forceVariant (testId variantId : string) : M unit :=
  if negb (ABTestConfig.debugMode abTestConfig)
  then console_warn_call "forceVariant only works in debug mode" None
  else
    do! storeVariant testId variantId in
    modify (push_console_log
      (LogText ("Forced variant " ++ variantId ++ " for test " ++ testId))).

(* ----- convenience functions for specific tests ----- *)




(* ----- debug utilities ----- *)




(** A caller that resolves the same test again and again, each time with
    its own random draw and visitor id. *)
Fixpoint resolveRepeatedly (calls : list (Q * option string))
  (testId : string) : M (list (option ABVariant.t)) :=
  match calls with
  | [] => ret []
  | (rnd, userId) :: calls =>
      let! variant := getVariant rnd testId userId in
      let! variants := resolveRepeatedly calls testId in
      ret (variant :: variants)
  end.

End Engine.

(* ================================================================== *)
(** ** Notions the specification uses                                  *)
(* ================================================================== *)

Definition sumWeights (vs : list ABVariant.t) : Z :=
  foldr Z.add 0 (map ABVariant.weight vs).

(** The variants that take part in weighted allocation. *)
Definition qualifying (test : ABTest.t) : list ABVariant.t :=
  List.filter (fun v => Z.ltb 0 (ABVariant.weight v)) (ABTest.variants test).

(** Cumulative weight after the variant at position [i], in declaration
    order. *)
Definition cumulativeWeightAt (vs : list ABVariant.t) (i : nat) : Z :=
  sumWeights (take (S i) vs).

(** Position [i] is the first whose cumulative weight meets or exceeds
    the scaled scalar [p]. *)
Definition firstReaching (p : Q) (vs : list ABVariant.t) (i : nat) : Prop :=
  (i < length vs)%nat /\
  (p <= inject_Z (cumulativeWeightAt vs i))%Q /\
  forall j, (j < i)%nat -> ~ (p <= inject_Z (cumulativeWeightAt vs j))%Q.

(** The accumulated weights never reach [p]. *)
Definition neverReached (p : Q) (vs : list ABVariant.t) : Prop :=
  forall j, (j < length vs)%nat ->
            ~ (p <= inject_Z (cumulativeWeightAt vs j))%Q.

(** The base-31 polynomial of the code units, before any reduction:
    c0 * 31^(n-1) + c1 * 31^(n-2) + ... + c(n-1). *)
Definition polyHash (codes : list Z) : Z :=
  fold_left (fun h c => 31 * h + c) codes 0.

(** Well-formedness of a test definition. *)
Record WellFormedTest (test : ABTest.t) : Prop := {
  wf_default_once :
    length (List.filter
              (fun v => String.eqb (ABVariant.id v) (ABTest.defaultVariant test))
              (ABTest.variants test)) = 1%nat;
  wf_ids_unique : NoDup (map ABVariant.id (ABTest.variants test));
  wf_weight_range :
    Forall (fun v => 0 <= ABVariant.weight v <= 100) (ABTest.variants test);
  wf_weight_total : sumWeights (ABTest.variants test) = 100
}.

(** Two browser states agree on everything the storage layer reads or
    writes. *)
Definition same_storage (e e' : Env) : Prop :=
  has_window e' = has_window e /\ has_document e' = has_document e /\
  ls_denied e' = ls_denied e /\ ls_full e' = ls_full e /\
  ls_items e' = ls_items e /\
  cookie_denied e' = cookie_denied e /\
  document_cookie e' = document_cookie e.

(** Two browser states have seen the same analytics events: the same
    calls of the sink and the same debug log. *)
Definition same_events (e e' : Env) : Prop :=
  va_calls e' = va_calls e /\ console_log e' = console_log e.

(** A computation that returns normally from every browser state. *)
Definition never_throws {A} (m : M A) : Prop :=
  forall e, exists a e', m e = (Ok a, e').

(** A computation that keeps a property of the browser state. *)
Definition preserves {A} (P : Env -> Prop) (m : M A) : Prop :=
  forall e, P e -> P (snd (m e)).

(** A computation that emits no analytics event. *)
Definition quiet {A} (m : M A) : Prop :=
  forall e, same_events e (snd (m e)).

(** The browser offers a window and accepts localStorage reads and
    writes. *)
Definition storage_works (e : Env) : Prop :=
  has_window e = true /\ ls_denied e = false /\ ls_full e = false.

Section StoragePredicates.

Context {platform : Platform}.
Variable abTestConfig : ABTestConfig.t.

(** The primary store holds [v] for the test: the per-test localStorage
    entry exists and can be read. *)
Definition primary_holds (e : Env) (testId v : string) : Prop :=
  has_window e = true /\ ls_denied e = false /\
  ls_items e !! ("ab_" ++ testId) = Some v.



(** The storage layer reports the assignment [v] for the test. *)
Definition stored_assignment (e : Env) (testId : string) (v : JS.value)
  : Prop :=
  fst (getStoredVariant abTestConfig testId e) = Ok v /\ JS.truthy v = true.

(** The storage layer reports no assignment for the test. *)
Definition no_stored_assignment (e : Env) (testId : string) : Prop :=
  exists v, fst (getStoredVariant abTestConfig testId e) = Ok v /\
            JS.truthy v = false.

End StoragePredicates.

(* ================================================================== *)
(** ** A platform instance for the examples                            *)
(* ================================================================== *)

Module ExamplePlatform.

Definition dq : ascii := ascii_of_nat 34.

Definition quote (s : string) : string :=
  String dq (s ++ String dq EmptyString).

Definition join (sep : string) (l : list string) : string :=
  match l with
  | [] => EmptyString
  | x :: rest => fold_left (fun acc y => acc ++ sep ++ y) rest x
  end.

(** [JSON.stringify] on objects whose values are strings without quotes or
    backslashes, the shape [storeVariant] writes; [null] elsewhere. *)
Definition stringify_member (kv : string * JS.value) : string :=
  match snd kv with
  | JS.Str s => quote (fst kv) ++ ":" ++ quote s
  | _ => quote (fst kv) ++ ":null"
  end.

Definition stringify (v : JS.value) : string :=
  match v with
  | JS.Obj props => "{" ++ join "," (map stringify_member props) ++ "}"
  | JS.Str s => quote s
  | _ => "null"
  end.

(** The text up to the closing quote, and what follows it. *)
Fixpoint read_quoted (s : string) : option (string * string) :=
  match s with
  | EmptyString => None
  | String c s' =>
      if Ascii.eqb c dq then Some (EmptyString, s')
      else match read_quoted s' with
           | Some (a, r) => Some (String c a, r)
           | None => None
           end
  end.

Fixpoint parse_members (fuel : nat) (acc : JS.object) (s : string)
  : option JS.object :=
  match fuel with
  | O => None
  | S fuel =>
      match s with
      | String c s1 =>
          if Ascii.eqb c dq then
            match read_quoted s1 with
            | Some (k, String ":" (String c2 s2)) =>
                if Ascii.eqb c2 dq then
                  match read_quoted s2 with
                  | Some (v, "}") => Some (JS.obj_set acc k (JS.Str v))
                  | Some (v, String "," s3) =>
                      parse_members fuel (JS.obj_set acc k (JS.Str v)) s3
                  | _ => None
                  end
                else None
            | _ => None
            end
          else None
      | EmptyString => None
      end
  end.

(** [JSON.parse] on the same fragment; any other text is rejected. *)
Definition parse (s : string) : option JS.value :=
  match s with
  | "{}" => Some (JS.Obj [])
  | String "{" s' => JS.Obj <$> parse_members (String.length s) [] s'
  | _ => None
  end.

(** [document.cookie = assigned]: the pair before the first [;] replaces
    the cookie of the same name or is added to the jar. *)
Definition assign (old assigned : string) : string :=
  let pair := default EmptyString (head (JS.split assigned ";")) in
  let name := default EmptyString (head (JS.split pair "=")) in
  let jar := if String.eqb old EmptyString then [] else JS.split old "; " in
  if existsb (String.prefix (name ++ "=")) jar
  then join "; " (map (fun c => if String.prefix (name ++ "=") c then pair else c) jar)
  else join "; " (jar ++ [pair]).

#[export] Instance instance : Platform := {|
  JSON_parse := parse;
  JSON_stringify := stringify;
  Date_toUTCString := fun ms => "t" ++ pretty ms;
  cookie_assign := assign
|}.

End ExamplePlatform.

(** A fresh browser: storage and cookies available and empty, the
    analytics sink installed. *)
Definition freshBrowser : Env := {|
  has_window := true; has_document := true;
  ls_denied := false; ls_full := false; ls_items := ∅;
  cookie_denied := false; document_cookie := EmptyString;
  has_va := true; now := 1700000000000;
  va_calls := []; console_log := []; console_warn := []
|}.

(** A render pass outside the browser: no [window], no [document]. *)
Definition serverRender : Env := {|
  has_window := false; has_document := false;
  ls_denied := true; ls_full := false; ls_items := ∅;
  cookie_denied := true; document_cookie := EmptyString;
  has_va := false; now := 1700000000000;
  va_calls := []; console_log := []; console_warn := []
|}.

(** The test of the specification's scenario: [A] weight 60, [B] weight
    40, default [A]. *)
Definition variantA : ABVariant.t := ABVariant.mk "A" "A" 60 (JS.Obj []).
Definition variantB : ABVariant.t := ABVariant.mk "B" "B" 40 (JS.Obj []).
Definition scenarioTest : ABTest.t :=
  ABTest.mk "t" "t" "scenario" true [variantA; variantB] "A" None None.

Definition scenarioRegistry : Registry := [("t", scenarioTest)].

(** The shipped configuration with testing switched off. *)
Definition disabledConfig : ABTestConfig.t := {|
  ABTestConfig.enabled := false;
  ABTestConfig.cookieName := ABTestConfig.cookieName abTestConfig;
  ABTestConfig.cookieExpireDays := ABTestConfig.cookieExpireDays abTestConfig;
  ABTestConfig.analyticsEnabled := ABTestConfig.analyticsEnabled abTestConfig;
  ABTestConfig.debugMode := ABTestConfig.debugMode abTestConfig;
  ABTestConfig.segments := ABTestConfig.segments abTestConfig
|}.

(** The shipped configuration with debug mode switched on. *)
Definition debugConfig : ABTestConfig.t := {|
  ABTestConfig.enabled := ABTestConfig.enabled abTestConfig;
  ABTestConfig.cookieName := ABTestConfig.cookieName abTestConfig;
  ABTestConfig.cookieExpireDays := ABTestConfig.cookieExpireDays abTestConfig;
  ABTestConfig.analyticsEnabled := ABTestConfig.analyticsEnabled abTestConfig;
  ABTestConfig.debugMode := true;
  ABTestConfig.segments := ABTestConfig.segments abTestConfig
|}.

(** A visitor already assigned to [aspirational] in the mission test. *)
Definition returningVisitor : Env :=
  set_ls_items {[ "ab_mission-approach-test" := "aspirational" ]} freshBrowser.



(** A browser whose localStorage quota is exhausted. *)
Definition quotaExceededBrowser : Env := {|
  has_window := true; has_document := true;
  ls_denied := false; ls_full := true; ls_items := ∅;
  cookie_denied := false; document_cookie := EmptyString;
  has_va := true; now := 1700000000000;
  va_calls := []; console_log := []; console_warn := []
|}.

(** A visitor known only through the cookie mirror, which maps the hero
    test to [original]. *)
Definition mirroredVisitor : Env :=
  set_document_cookie
    ("warden_ab_variants=" ++
     ExamplePlatform.stringify
       (JS.Obj [("hero-messaging-test", JS.Str "original")]))
    freshBrowser.

(** A visitor whose cookie payload is not JSON. *)
Definition corruptCookieVisitor : Env :=
  set_document_cookie "warden_ab_variants=not-json" freshBrowser.

(* ================================================================== *)
(** ** Rate limiting of a platform adapter ([BasePlatformAdapter])     *)
(* ================================================================== *)

Module RateLimitInfo.
Record t : Type := mk {
  remaining : Z;
  resetTime : Z;     (* milliseconds, as [Date.getTime()] *)
  window : Z         (* seconds *)
}.
End RateLimitInfo.

Module BasePlatformAdapter.

(** The field [rateLimitTracker], a [Map] from endpoint name to limit. *)
Definition Tracker : Type := gmap string RateLimitInfo.t.

Section Adapter.

(** The abstract getter [platformName]. *)
Variable platformName : string.

(** [canPost()] at clock reading [now]: the answer and the tracker it
    leaves behind. *)
Definition canPost (now : Z) (rateLimitTracker : gmap string RateLimitInfo.t)
  : bool * gmap string RateLimitInfo.t :=
  let rateLimitKey := platformName ++ "-posts" in
  match rateLimitTracker !! rateLimitKey with
  | None => (true, rateLimitTracker)
  | Some rateLimit =>
      if Z.ltb (RateLimitInfo.resetTime rateLimit) now
      then (true, delete rateLimitKey rateLimitTracker)
      else (Z.ltb 0 (RateLimitInfo.remaining rateLimit), rateLimitTracker)
  end.

Definition updateRateLimit (endpoint : string) (remaining : Z)
  (resetTime : Z) (rateLimitTracker : gmap string RateLimitInfo.t)
  : gmap string RateLimitInfo.t :=
  <[endpoint := RateLimitInfo.mk remaining resetTime 3600]> rateLimitTracker.

(** [handleRateLimit()] at clock reading [now]: the delay handed to
    [setTimeout], or [None] when it does not wait. *)
Definition handleRateLimit (now : Z)
  (rateLimitTracker : gmap string RateLimitInfo.t) : option Z :=
  let rateLimitKey := platformName ++ "-posts" in
  match rateLimitTracker !! rateLimitKey with
  | Some rateLimit =>
      if Z.leb (RateLimitInfo.remaining rateLimit) 0
      then
        let waitTime := RateLimitInfo.resetTime rateLimit - now in
        if Z.ltb 0 waitTime then Some waitTime else None
      else None
  | None => None
  end.

End Adapter.

End BasePlatformAdapter.

(* ================================================================== *)
(** ** The hash of an identified visitor                               *)
(* ================================================================== *)

Lemma toInt32_range (x : Z) : -2147483648 <= JS.toInt32 x < 2147483648.
Proof.
  unfold JS.toInt32.
  change (2 ^ 31) with 2147483648. change (2 ^ 32) with 4294967296.
  pose proof (Z.mod_pos_bound (x + 2147483648) 4294967296). lia.
Qed.

Lemma hashStep_range (hash char : Z) :
  -2147483648 <= hashStep hash char < 2147483648.
Proof.
  unfold hashStep. cbv zeta. rewrite Z.land_diag. apply toInt32_range.
Qed.

Lemma fold_hashStep_range (codes : list Z) :
  forall acc, -2147483648 <= acc < 2147483648 ->
              -2147483648 <= fold_left hashStep codes acc < 2147483648.
Proof.
  induction codes as [|c codes IH]; intros acc Hacc; simpl.
  - exact Hacc.
  - apply IH, hashStep_range.
Qed.

Lemma hashCode_range (codes : list Z) :
  -2147483648 <= hashCode codes < 2147483648.
Proof. unfold hashCode. apply fold_hashStep_range. lia. Qed.

Lemma hashToUnit_bounds (hash : Z) :
  -2147483648 <= hash < 2147483648 ->
  (0 <= hashToUnit hash)%Q /\ (hashToUnit hash <= 1)%Q /\
  ((hashToUnit hash < 1)%Q <-> hash <> -2147483648).
Proof.
  intros Hr. unfold hashToUnit, Qle, Qlt. simpl.
  repeat split; try lia.
Qed.

(** The hash of the 18-letter word below is the least 32-bit integer. *)
Example hashCode_polygenelubricants :
  hashCode (JS.charCodes "polygenelubricants") = -2147483648.
Proof. vm_compute. reflexivity. Qed.

(** The same happens for a visitor of the hero test: the hash of
    [userId + testId] is the least 32-bit integer, and the scalar is 1. *)
Example selectionScalar_reaches_one :
  hashCode (JS.charCodes ("user-baggllo" ++ "hero-messaging-test"))
    = -2147483648 /\
  selectionScalar 0 heroABTest (Some "user-baggllo")
    = (2147483648 # 2147483648)%Q.
Proof. split; vm_compute; reflexivity. Qed.

(** C8, as stated, fails: for this input the scalar is exactly 1, so it is
    not strictly below 1. *)
Lemma hashStringToNumber_not_below_one :
  hashStringToNumber "polygenelubricants" = (2147483648 # 2147483648)%Q /\
  ~ (hashStringToNumber "polygenelubricants" < 1)%Q.
Proof.
  split.
  - vm_compute. reflexivity.
  - unfold hashStringToNumber. rewrite hashCode_polygenelubricants.
    unfold hashToUnit, Qlt. simpl. lia.
Qed.

(** C8 (amended): for every input string, [hashStringToNumber] returns a
    value in the closed interval [0,1]; the value is strictly below 1
    exactly when the 32-bit hash differs from -2^31, and it is 1 when the
    hash is -2^31. *)
Theorem hashStringToNumber_closed_unit_interval (str : string) :
  (0 <= hashStringToNumber str)%Q /\
  (hashStringToNumber str <= 1)%Q /\
  ((hashStringToNumber str < 1)%Q <->
   hashCode (JS.charCodes str) <> -2147483648).
Proof.
  unfold hashStringToNumber. apply hashToUnit_bounds, hashCode_range.
Qed.

(* ================================================================== *)
(** ** Weighted selection                                              *)
(* ================================================================== *)

Lemma cumulativeWeightAt_head (v : ABVariant.t) (vs : list ABVariant.t) :
  cumulativeWeightAt (v :: vs) 0 = ABVariant.weight v.
Proof. unfold cumulativeWeightAt, sumWeights. simpl. lia. Qed.

Lemma cumulativeWeightAt_tail (v : ABVariant.t) (vs : list ABVariant.t) (i : nat) :
  cumulativeWeightAt (v :: vs) (S i) =
  ABVariant.weight v + cumulativeWeightAt vs i.
Proof. reflexivity. Qed.

(** The loop returns the variant at the first position whose running
    total reaches [p]. *)
Lemma walkVariants_Some (p : Q) (vs : list ABVariant.t) :
  forall c v,
    walkVariants p c vs = Some v ->
    exists i,
      vs !! i = Some v /\
      (p <= inject_Z (c + cumulativeWeightAt vs i))%Q /\
      forall j, (j < i)%nat ->
                ~ (p <= inject_Z (c + cumulativeWeightAt vs j))%Q.
Proof.
  induction vs as [|x rest IH]; intros c v Hw; simpl in Hw.
  - discriminate.
  - destruct (Qle_bool p (inject_Z (c + ABVariant.weight x))) eqn:Hle.
    + injection Hw as <-. exists 0%nat. split; [reflexivity|]. split.
      * rewrite cumulativeWeightAt_head. by apply Qle_bool_iff.
      * intros j Hj. lia.
    + destruct (IH _ _ Hw) as (i & Hi & Hreach & Hbefore).
      exists (S i). split; [exact Hi|]. split.
      * rewrite cumulativeWeightAt_tail, Z.add_assoc. exact Hreach.
      * intros [|j] Hj.
        -- rewrite cumulativeWeightAt_head. intros Hc.
           apply Qle_bool_iff in Hc. congruence.
        -- rewrite cumulativeWeightAt_tail, Z.add_assoc.
           apply Hbefore. lia.
Qed.

(** The loop ends without returning only if no running total reaches
    [p]. *)
Lemma walkVariants_None (p : Q) (vs : list ABVariant.t) :
  forall c,
    walkVariants p c vs = None ->
    forall j, (j < length vs)%nat ->
              ~ (p <= inject_Z (c + cumulativeWeightAt vs j))%Q.
Proof.
  induction vs as [|x rest IH]; intros c Hw j Hj; simpl in *.
  - lia.
  - destruct (Qle_bool p (inject_Z (c + ABVariant.weight x))) eqn:Hle;
      [discriminate|].
    destruct j as [|j].
    + rewrite cumulativeWeightAt_head. intros Hc.
      apply Qle_bool_iff in Hc. congruence.
    + rewrite cumulativeWeightAt_tail, Z.add_assoc.
      apply (IH _ Hw). lia.
Qed.

(** When the total weight is at least [p], the loop returns. *)
Lemma walkVariants_reaches (p : Q) (vs : list ABVariant.t) :
  forall c,
    vs <> [] ->
    (p <= inject_Z (c + sumWeights vs))%Q ->
    walkVariants p c vs <> None.
Proof.
  induction vs as [|x rest IH]; intros c Hne Hp; [done|]. simpl.
  destruct (Qle_bool p (inject_Z (c + ABVariant.weight x))) eqn:Hle; [done|].
  destruct rest as [|y rest'].
  - exfalso. unfold sumWeights in Hp. simpl in Hp.
    rewrite Z.add_0_r in Hp. apply Qle_bool_iff in Hp. congruence.
  - apply IH; [done|].
    unfold sumWeights in *. simpl in *. by rewrite <- Z.add_assoc.
Qed.

Lemma lookup_lt_length {A} (l : list A) (i : nat) (x : A) :
  l !! i = Some x -> (i < length l)%nat.
Proof. intros H. apply lookup_lt_Some in H. exact H. Qed.

(** What [assignVariantByWeight] returns, in the words of the selection
    rule. *)
Lemma assignVariantByWeight_rule (rnd : Q) (test : ABTest.t)
  (userId : option string) :
  let vs := qualifying test in
  let p := (selectionScalar rnd test userId * 100)%Q in
  match vs with
  | [] => assignVariantByWeight rnd test userId = getDefaultVariant (Some test)
  | first :: _ =>
      (exists i v, firstReaching p vs i /\ vs !! i = Some v /\
                   assignVariantByWeight rnd test userId = Some v) \/
      (neverReached p vs /\
       assignVariantByWeight rnd test userId = Some first)
  end.
Proof.
  intros vs p. unfold assignVariantByWeight. fold (qualifying test). fold vs.
  destruct vs as [|first rest] eqn:Hvs; [reflexivity|].
  change ((length (first :: rest) =? 0)%nat) with false. cbv iota.
  fold p.
  destruct (walkVariants p 0 (first :: rest)) as [v|] eqn:Hw.
  - left. destruct (walkVariants_Some _ _ _ _ Hw) as (i & Hi & Hreach & Hbefore).
    exists i, v. split; [|done].
    split; [by eapply lookup_lt_length|]. split.
    + by rewrite Z.add_0_l in Hreach.
    + intros j Hj. specialize (Hbefore j Hj). by rewrite Z.add_0_l in Hbefore.
  - right. split; [|reflexivity].
    intros j Hj. pose proof (walkVariants_None _ _ _ Hw j Hj) as Hn.
    by rewrite Z.add_0_l in Hn.
Qed.

(** [assignVariantByWeight] yields nothing only when the default variant
    is missing as well. *)
Lemma assignVariantByWeight_None (rnd : Q) (test : ABTest.t)
  (userId : option string) :
  assignVariantByWeight rnd test userId = None ->
  getDefaultVariant (Some test) = None.
Proof.
  pose proof (assignVariantByWeight_rule rnd test userId) as H.
  cbv zeta in H. intros Hn. rewrite Hn in H.
  destruct (qualifying test); [done|].
  destruct H as [(i & v & _ & _ & H)|[_ H]]; discriminate.
Qed.

(* ================================================================== *)
(** ** The storage layer                                               *)
(* ================================================================== *)

Ltac unfold_monad :=
  unfold try_catch, bind, ret, throw, gets, modify, console_warn_call,
    localStorage_getItem, localStorage_setItem, get_document_cookie,
    get_prop, set_prop in *.

Ltac mstep := repeat (unfold_monad; cbn beta iota zeta).

Lemma same_storage_refl (e : Env) : same_storage e e.
Proof. by repeat split. Qed.

Lemma same_storage_trans (e1 e2 e3 : Env) :
  same_storage e1 e2 -> same_storage e2 e3 -> same_storage e1 e3.
Proof.
  unfold same_storage. intros (?&?&?&?&?&?&?) (?&?&?&?&?&?&?).
  repeat split; congruence.
Qed.

Lemma same_events_refl (e : Env) : same_events e e.
Proof. by split. Qed.

Lemma same_events_trans (e1 e2 e3 : Env) :
  same_events e1 e2 -> same_events e2 e3 -> same_events e1 e3.
Proof. unfold same_events. intros [??] [??]. split; congruence. Qed.

Lemma same_storage_warn (w : string * option Exn) (e : Env) :
  same_storage e (push_console_warn w e).
Proof. by repeat split. Qed.

Lemma same_events_warn (w : string * option Exn) (e : Env) :
  same_events e (push_console_warn w e).
Proof. by split. Qed.

Lemma try_catch_never_throws {A} (body : M A) (handler : Exn -> M A) :
  (forall x, never_throws (handler x)) ->
  never_throws (try_catch body handler).
Proof.
  intros Hh e. unfold try_catch.
  destruct (body e) as [[a|x] e']; [by eauto|]. apply Hh.
Qed.

Lemma quiet_bind {A B} (m : M A) (k : A -> M B) :
  quiet m -> (forall a, quiet (k a)) -> quiet (bind m k).
Proof.
  intros Hm Hk e. unfold bind. specialize (Hm e).
  destruct (m e) as [[a|x] e']; simpl in *; [|done].
  eapply same_events_trans; [exact Hm|apply Hk].
Qed.

Lemma quiet_try_catch {A} (body : M A) (handler : Exn -> M A) :
  quiet body -> (forall x, quiet (handler x)) ->
  quiet (try_catch body handler).
Proof.
  intros Hm Hk e. unfold try_catch. specialize (Hm e).
  destruct (body e) as [[a|x] e']; simpl in *; [done|].
  eapply same_events_trans; [exact Hm|apply Hk].
Qed.

Lemma preserves_bind {A B} (P : Env -> Prop) (m : M A) (k : A -> M B) :
  preserves P m -> (forall a, preserves P (k a)) -> preserves P (bind m k).
Proof.
  intros Hm Hk e HP. unfold bind. specialize (Hm e HP).
  destruct (m e) as [[a|x] e']; simpl in *; [|done]. by apply Hk.
Qed.

Lemma preserves_try_catch {A} (P : Env -> Prop) (body : M A)
  (handler : Exn -> M A) :
  preserves P body -> (forall x, preserves P (handler x)) ->
  preserves P (try_catch body handler).
Proof.
  intros Hm Hk e HP. unfold try_catch. specialize (Hm e HP).
  destruct (body e) as [[a|x] e']; simpl in *; [done|]. by apply Hk.
Qed.

Section StorageFacts.

Context {platform : Platform}.
Variable abTestConfig : ABTestConfig.t.

(** Reading a cookie leaves the browser as it is. *)
Lemma getCookie_env (name : string) (e : Env) :
  snd (getCookie name e) = e.
Proof.
  unfold getCookie. unfold_monad.
  repeat case_match; simplify_eq/=; reflexivity.
Qed.

(** A cookie read depends on the cookie jar only. *)
Lemma getCookie_ext (name : string) (e e' : Env) :
  has_document e' = has_document e ->
  cookie_denied e' = cookie_denied e ->
  document_cookie e' = document_cookie e ->
  fst (getCookie name e') = fst (getCookie name e).
Proof.
  intros Hd Hcd Hc.
  unfold getCookie. unfold_monad. rewrite Hd, Hcd, Hc.
  destruct (has_document e), (cookie_denied e); simpl; try reflexivity.
  by destruct (_ =? _)%nat.
Qed.

Lemma getCookie_same_storage (name : string) (e e' : Env) :
  same_storage e e' -> fst (getCookie name e') = fst (getCookie name e).
Proof.
  intros (_ & Hd & _ & _ & _ & Hcd & Hc). by apply getCookie_ext.
Qed.

(** [getStoredVariant] returns a value, never an exception, and touches
    nothing but the warning log. *)
Lemma getStoredVariant_run (testId : string) (e : Env) :
  exists v e',
    getStoredVariant abTestConfig testId e = (Ok v, e') /\
    (e' = e \/ exists w, e' = push_console_warn w e).
Proof.
  assert (Hfin : forall (r : Res JS.value * Env),
    (exists v, r = (Ok v, e) \/ exists w, r = (Ok v, push_console_warn w e)) ->
    exists v e', r = (Ok v, e') /\
                 (e' = e \/ exists w, e' = push_console_warn w e)).
  { intros r (v & [-> | (w & ->)]); eauto 10. }
  apply Hfin. clear Hfin.
  unfold getStoredVariant.
  destruct (has_window e); simpl; [|eauto].
  pose proof (getCookie_env (ABTestConfig.cookieName abTestConfig) e) as Hc.
  mstep.
  destruct (ls_denied e); [eauto|].
  destruct (truthyStr (ls_items e !! ("ab_" ++ testId))); [eauto|].
  destruct (getCookie _ e) as [[o|x] e1]; simpl in Hc; subst e1; [|eauto].
  destruct (truthyStr o) as [payload|]; [|eauto].
  destruct (JSON_parse payload) as [[]|]; eauto.
Qed.

Lemma getStoredVariant_same_storage (testId : string) (e e' : Env) :
  same_storage e e' ->
  fst (getStoredVariant abTestConfig testId e') =
  fst (getStoredVariant abTestConfig testId e).
Proof.
  intros Hs.
  pose proof (getCookie_same_storage (ABTestConfig.cookieName abTestConfig) _ _ Hs) as Hck.
  pose proof (getCookie_env (ABTestConfig.cookieName abTestConfig) e) as Hc.
  pose proof (getCookie_env (ABTestConfig.cookieName abTestConfig) e') as Hc'.
  destruct Hs as (Hw & Hd & Hld & _ & Hl & Hcd & Hcc).
  unfold getStoredVariant. rewrite Hw.
  destruct (has_window e); simpl; [|done].
  mstep. rewrite Hld, Hl.
  destruct (ls_denied e); [done|].
  destruct (truthyStr (ls_items e !! _)); [done|].
  destruct (getCookie _ e) as [r e1], (getCookie _ e') as [r' e1'].
  simpl in *. subst. destruct r as [o|x]; [|done].
  destruct (truthyStr o); [|done].
  destruct (JSON_parse _) as [[]|]; done.
Qed.
Lemma truthyStr_Some (o : option string) (s : string) :
  truthyStr o = Some s -> o = Some s /\ s <> EmptyString.
Proof.
  destruct o as [s'|]; simpl; [|done].
  destruct (String.eqb_spec s' EmptyString); [done|].
  intros [= ->]. done.
Qed.

Lemma truthyStr_nonempty (s : string) :
  s <> EmptyString -> truthyStr (Some s) = Some s.
Proof.
  intros Hs. simpl. by destruct (String.eqb_spec s EmptyString).
Qed.

(** A cookie value that [getCookie] returns is a non-empty string, and the
    cookie jar was readable. *)
Lemma getCookie_Some (name payload : string) (e e' : Env) :
  getCookie name e = (Ok (Some payload), e') ->
  e' = e /\ payload <> EmptyString /\
  has_document e = true /\ cookie_denied e = false.
Proof.
  intros H. pose proof (getCookie_env name e) as He.
  rewrite H in He. simpl in He. subst e'. split; [done|].
  unfold getCookie in H. mstep.
  destruct (has_document e); simpl in H; [|done].
  destruct (cookie_denied e); [done|].
  destruct (_ =? _)%nat; [|done].
  injection H as H. apply truthyStr_Some in H as [_ H]. done.
Qed.

(** Precedence: a non-empty primary entry is returned without consulting
    the cookie. *)
Lemma getStoredVariant_primary (testId v : string) (e : Env) :
  primary_holds e testId v ->
  v <> EmptyString ->
  getStoredVariant abTestConfig testId e = (Ok (JS.Str v), e).
Proof.
  intros (Hw & Hd & Hl) Hv. unfold getStoredVariant. rewrite Hw. simpl.
  mstep. rewrite Hd, Hl, (truthyStr_nonempty _ Hv). reflexivity.
Qed.



(** A truthy result comes from a successful read, which logs nothing. *)
Lemma getStoredVariant_truthy_env (testId : string) (v : JS.value) (e e' : Env) :
  getStoredVariant abTestConfig testId e = (Ok v, e') ->
  JS.truthy v = true ->
  e' = e.
Proof.
  unfold getStoredVariant.
  destruct (has_window e); simpl; [|by intros [= <- <-]].
  pose proof (getCookie_env (ABTestConfig.cookieName abTestConfig) e) as Hc.
  mstep.
  destruct (ls_denied e); [by intros [= <- <-]|].
  destruct (truthyStr (ls_items e !! ("ab_" ++ testId))); [by intros [= <- <-]|].
  destruct (getCookie _ e) as [[o|x] e1]; simpl in Hc; subst e1;
    [|by intros [= <- <-]].
  destruct (truthyStr o) as [payload|]; [|by intros [= <- <-]].
  destruct (JSON_parse payload) as [[]|]; mstep; by intros [= <- <-].
Qed.

(** [storeVariant] returns normally whatever the browser does. *)
Lemma storeVariant_never_throws (testId variantId : string) :
  never_throws (storeVariant abTestConfig testId variantId).
Proof.
  intros e. unfold storeVariant.
  destruct (has_window e); simpl; [|by eauto].
  apply try_catch_never_throws. intros x e1. by do 2 eexists.
Qed.

(** [storeVariant] emits no analytics event. *)
Lemma storeVariant_quiet (testId variantId : string) :
  quiet (storeVariant abTestConfig testId variantId).
Proof.
  intros e. unfold storeVariant.
  destruct (has_window e); simpl; [|apply same_events_refl].
  revert e. apply quiet_try_catch; [|intros x e; by split].
  apply quiet_bind.
  { intros e. unfold localStorage_setItem. by destruct (_ || _). }
  intros _. apply quiet_bind.
  { intros e. rewrite getCookie_env. apply same_events_refl. }
  intros o. apply quiet_bind.
  { destruct (truthyStr o) as [payload|]; [|by intros e].
    apply quiet_try_catch; [|by intros x e].
    by destruct (JSON_parse payload). }
  intros variants. apply quiet_bind.
  { by destruct variants. }
  intros variants' e. unfold setCookie. mstep.
  destruct (has_document e); simpl; [|apply same_events_refl].
  by destruct (cookie_denied e).
Qed.

Lemma storeVariant_no_window (testId variantId : string) (e : Env) :
  has_window e = false ->
  storeVariant abTestConfig testId variantId e = (Ok tt, e).
Proof. intros Hw. unfold storeVariant. by rewrite Hw. Qed.

Lemma getStoredVariant_no_window (testId : string) (e : Env) :
  has_window e = false ->
  getStoredVariant abTestConfig testId e = (Ok JS.Null, e).
Proof. intros Hw. unfold getStoredVariant. by rewrite Hw. Qed.

(** With an undecodable cookie, [storeVariant] starts the mapping again
    from the empty object. *)
Lemma storeVariant_malformed (testId variantId payload : string) (e : Env) :
  has_window e = true -> ls_denied e = false -> ls_full e = false ->
  fst (getCookie (ABTestConfig.cookieName abTestConfig) e) = Ok (Some payload) ->
  JSON_parse payload = None ->
  storeVariant abTestConfig testId variantId e =
  (Ok tt,
   set_document_cookie
     (cookie_assign (document_cookie e)
        (ABTestConfig.cookieName abTestConfig ++ "=" ++
         JSON_stringify (JS.Obj [(testId, JS.Str variantId)]) ++
         ";expires=" ++
         Date_toUTCString
           (now e + ABTestConfig.cookieExpireDays abTestConfig
                    * 24 * 60 * 60 * 1000) ++
         ";path=/"))
     (set_ls_items (<["ab_" ++ testId := variantId]> (ls_items e)) e)).
Proof.
  intros Hw Hd Hf Hc Hp.
  set (e1 := set_ls_items (<["ab_" ++ testId := variantId]> (ls_items e)) e).
  assert (Hc1 : getCookie (ABTestConfig.cookieName abTestConfig) e1 =
                (Ok (Some payload), e1)).
  { pose proof (getCookie_env (ABTestConfig.cookieName abTestConfig) e1) as He.
    assert (fst (getCookie (ABTestConfig.cookieName abTestConfig) e1) =
            fst (getCookie (ABTestConfig.cookieName abTestConfig) e)) as Hf1.
    { by apply getCookie_ext. }
    rewrite Hc in Hf1.
    destruct (getCookie _ e1) as [r e2]. simpl in *. by subst. }
  destruct (getCookie_Some _ _ _ _ Hc1) as (_ & Hne & Hdoc & Hcd).
  unfold storeVariant. rewrite Hw. simpl. mstep. rewrite Hd, Hf. simpl.
  fold e1. rewrite Hc1, (truthyStr_nonempty _ Hne), Hp. mstep.
  unfold setCookie. rewrite Hdoc. simpl. mstep. rewrite Hcd. reflexivity.
Qed.

(** What [storeVariant] writes is what the next read reports, provided
    the browser accepts the write and the id is not the empty string. *)
Lemma storeVariant_then_read (testId variantId : string) (e : Env) :
  has_window e = true -> ls_denied e = false -> ls_full e = false ->
  variantId <> EmptyString ->
  stored_assignment abTestConfig
    (snd (storeVariant abTestConfig testId variantId e)) testId
    (JS.Str variantId).
Proof.
  intros Hw Hd Hf Hne.
  assert (Hp : primary_holds (snd (storeVariant abTestConfig testId variantId e))
                 testId variantId).
  { unfold storeVariant. rewrite Hw. simpl.
    unfold try_catch at 1, bind at 1, localStorage_setItem.
    rewrite Hd, Hf. simpl.
    set (e1 := set_ls_items _ e).
    assert (He1 : primary_holds e1 testId variantId).
    { repeat split; try done. simpl. apply lookup_insert_eq. }
    assert (Hrest : forall (rest : M unit),
      preserves (fun e => primary_holds e testId variantId) rest ->
      primary_holds
        (snd (let (r, e') := rest e1 in
              match r with
              | Ok a => (Ok a, e')
              | Throw x =>
                  console_warn_call "Error storing AB variant:" (Some x) e'
              end)) testId variantId).
    { intros rest Hpres. specialize (Hpres e1 He1).
      destruct (rest e1) as [[a|x] e2]; exact Hpres. }
    apply Hrest. apply preserves_bind.
    { intros e0 H0. by rewrite getCookie_env. }
    intros o. apply preserves_bind.
    { destruct (truthyStr o) as [payload|]; [|by intros e0].
      apply preserves_try_catch; [|by intros x e0].
      destruct (JSON_parse payload); by intros e0. }
    intros variants. apply preserves_bind.
    { destruct variants; by intros e0. }
    intros variants' e0 H0. unfold setCookie. mstep.
    destruct (has_document e0); simpl; [|done].
    by destruct (cookie_denied e0). }
  split; [|by simpl; destruct (String.eqb_spec variantId EmptyString)].
  by rewrite (getStoredVariant_primary _ _ _ Hp Hne).
Qed.

(** The analytics emitter returns normally and leaves storage alone. *)
Lemma trackAnalyticsEvent_run (type : ABAnalyticsEventType) (testId : string)
  (variantId : JS.value) (metadata : option JS.object) (e : Env) :
  exists e',
    trackAnalyticsEvent abTestConfig type testId variantId metadata e =
    (Ok tt, e') /\
    same_storage e e' /\
    va_calls e' =
      (va_calls e ++
       if ABTestConfig.analyticsEnabled abTestConfig && has_window e && has_va e
       then [("track", eventName type,
              JS.spread [("test_id", JS.Str testId); ("variant_id", variantId)]
                        (default [] metadata))]
       else [])%list /\
    console_log e' =
      (console_log e ++
       if ABTestConfig.analyticsEnabled abTestConfig
          && ABTestConfig.debugMode abTestConfig
       then [LogEvent "[AB Test]"
               (ABAnalyticsEvent.mk type testId variantId (now e) metadata)]
       else [])%list.
Proof.
  unfold trackAnalyticsEvent.
  destruct (ABTestConfig.analyticsEnabled abTestConfig); simpl.
  2:{ eexists. split; [reflexivity|]. split; [apply same_storage_refl|].
      by rewrite !app_nil_r. }
  mstep.
  destruct (ABTestConfig.debugMode abTestConfig); simpl;
    destruct (has_window e) eqn:Hw, (has_va e) eqn:Hv; simpl;
    eexists; (split; [reflexivity|]); simpl;
    rewrite ?app_nil_r; by repeat split.
Qed.

End StorageFacts.

(* ================================================================== *)
(** ** Resolution                                                      *)
(* ================================================================== *)

Lemma existsb_find {A} (f : A -> bool) (l : list A) :
  existsb f l = true -> exists x, find f l = Some x.
Proof.
  induction l as [|a l IH]; simpl; [done|].
  destruct (f a); [by eauto|]. exact IH.
Qed.

Lemma getVariantById_Some (test : ABTest.t) (variantId : string)
  (v : ABVariant.t) :
  getVariantById test (JS.Str variantId) = Some v ->
  In v (ABTest.variants test) /\ ABVariant.id v = variantId.
Proof.
  unfold getVariantById. intros H. apply find_some in H as [Hin Heq].
  split; [done|]. simpl in Heq. by apply String.eqb_eq in Heq.
Qed.

Lemma isValidVariant_getVariantById (test : ABTest.t) (variantId : JS.value) :
  isValidVariant test variantId = true ->
  exists v, getVariantById test variantId = Some v.
Proof. apply existsb_find. Qed.

Section ResolutionFacts.

Context {platform : Platform}.
Variable abTestConfig : ABTestConfig.t.
Variable abTestRegistry : Registry.

Lemma getTestByIdFromRegistry_testId (testId : string) (test : ABTest.t) :
  getTestByIdFromRegistry abTestRegistry testId = Some test ->
  ABTest.testId test = testId.
Proof.
  unfold getTestByIdFromRegistry. intros H.
  apply find_some in H as [_ H]. by apply String.eqb_eq in H.
Qed.

(** Step 1 of resolution: a missing or disabled test, or disabled testing,
    yields the default variant and touches nothing. *)
Lemma getVariant_disabled (rnd : Q) (testId : string) (userId : option string)
  (e : Env) :
  match getTestByIdFromRegistry abTestRegistry testId with
  | None => True
  | Some test =>
      ABTest.enabled test = false \/ ABTestConfig.enabled abTestConfig = false
  end ->
  getVariant abTestConfig abTestRegistry rnd testId userId e =
  (Ok (getDefaultVariant (getTestByIdFromRegistry abTestRegistry testId)), e).
Proof.
  unfold getVariant.
  destruct (getTestByIdFromRegistry abTestRegistry testId) as [test|];
    [|done].
  by intros [-> | ->]; rewrite ?orb_true_r.
Qed.

(** Step 2: a stored, still valid assignment is returned as it is; only
    a "viewed" event is emitted. *)
Lemma getVariant_stored (rnd : Q) (testId : string) (userId : option string)
  (test : ABTest.t) (stored : JS.value) (e : Env) :
  getTestByIdFromRegistry abTestRegistry testId = Some test ->
  ABTest.enabled test = true ->
  ABTestConfig.enabled abTestConfig = true ->
  stored_assignment abTestConfig e testId stored ->
  isValidVariant test stored = true ->
  exists e',
    getVariant abTestConfig abTestRegistry rnd testId userId e =
    (Ok (getVariantById test stored), e') /\
    same_storage e e'.
Proof.
  intros Ht Hen Hcfg [Hst Htr] Hvalid.
  unfold getVariant. rewrite Ht, Hen, Hcfg. simpl. unfold bind.
  destruct (getStoredVariant abTestConfig testId e) as [r e1] eqn:Hg.
  simpl in Hst. subst r.
  rewrite (getStoredVariant_truthy_env _ _ _ _ _ Hg Htr).
  rewrite Htr, Hvalid. simpl.
  destruct (trackAnalyticsEvent_run abTestConfig VARIANT_VIEWED testId stored
              None e) as (e' & -> & Hs & _).
  eauto.
Qed.

(** Steps 3 and 4: without a stored valid assignment the result is the
    weighted selection. *)
Lemma getVariant_unassigned (rnd : Q) (testId : string)
  (userId : option string) (test : ABTest.t) (stored : JS.value) (e : Env) :
  getTestByIdFromRegistry abTestRegistry testId = Some test ->
  ABTest.enabled test = true ->
  ABTestConfig.enabled abTestConfig = true ->
  fst (getStoredVariant abTestConfig testId e) = Ok stored ->
  JS.truthy stored && isValidVariant test stored = false ->
  fst (getVariant abTestConfig abTestRegistry rnd testId userId e) =
  Ok (assignVariantByWeight rnd test userId).
Proof.
  intros Ht Hen Hcfg Hst Hno.
  unfold getVariant. rewrite Ht, Hen, Hcfg. simpl. unfold bind.
  destruct (getStoredVariant abTestConfig testId e) as [r e1].
  simpl in Hst. subst r. rewrite Hno.
  destruct (assignVariantByWeight rnd test userId) as [v|] eqn:Ha.
  - destruct (storeVariant_never_throws abTestConfig testId (ABVariant.id v) e1)
      as ([] & e2 & ->).
    destruct (trackAnalyticsEvent_run abTestConfig VARIANT_ASSIGNED testId
                (JS.Str (ABVariant.id v)) None e2) as (e3 & -> & _).
    reflexivity.
  - apply assignVariantByWeight_None in Ha. simpl in Ha.
    unfold ret. cbn [fst]. by rewrite Ha.
Qed.


End ResolutionFacts.

(** Scenario of the specification: under debug mode, [forceVariant]
    followed by a resolution yields the forced variant's configuration,
    whatever the weights and the random draw; outside debug mode
    [forceVariant] stores nothing. *)
Example forceVariant_scenario :
  let forced :=
    snd (forceVariant (platform := ExamplePlatform.instance) debugConfig
           "mission-approach-test" "aspirational" freshBrowser) in
  fst (getVariantConfig (platform := ExamplePlatform.instance) debugConfig
         abTestRegistry (1 # 10) "mission-approach-test" None forced)
    = Ok (default JS.Null
            (ABVariant.config
               <$> getVariantById missionABTest (JS.Str "aspirational"))) /\
  same_storage freshBrowser
    (snd (forceVariant (platform := ExamplePlatform.instance) abTestConfig
            "mission-approach-test" "aspirational" freshBrowser)).
Proof. split; [vm_compute; reflexivity|by repeat split]. Qed.

(* ================================================================== *)
(** ** The properties of the specification                             *)
(* ================================================================== *)

(** C3: if global testing is disabled or the looked-up test is disabled,
    [getVariant] returns the test's default variant, the variant whose id
    equals the [defaultVariant] field, whatever is stored and whatever the
    weights are, and leaves the browser untouched; if no test has the
    given id it returns null. *)
Theorem getVariant_disabled_returns_default {platform : Platform}
  (abTestConfig : ABTestConfig.t) (abTestRegistry : Registry)
  (rnd : Q) (testId : string) (userId : option string) (e : Env) :
  (forall test,
     getTestByIdFromRegistry abTestRegistry testId = Some test ->
     ABTest.enabled test = false \/ ABTestConfig.enabled abTestConfig = false ->
     getVariant abTestConfig abTestRegistry rnd testId userId e =
       (Ok (getDefaultVariant (Some test)), e) /\
     (forall v, getDefaultVariant (Some test) = Some v ->
                In v (ABTest.variants test) /\
                ABVariant.id v = ABTest.defaultVariant test) /\
     (getDefaultVariant (Some test) = None ->
      forall v, In v (ABTest.variants test) ->
                ABVariant.id v <> ABTest.defaultVariant test)) /\
  (getTestByIdFromRegistry abTestRegistry testId = None ->
   getVariant abTestConfig abTestRegistry rnd testId userId e = (Ok None, e)).
Proof.
  split.
  - intros test Ht Hoff. split; [|split].
    + pose proof (getVariant_disabled abTestConfig abTestRegistry rnd testId
                    userId e) as H.
      rewrite Ht in H. by apply H.
    + intros v Hv. by apply getVariantById_Some.
    + intros Hnone v Hin Hid. simpl in Hnone. unfold getVariantById in Hnone.
      eapply find_none in Hnone; [|exact Hin]. simpl in Hnone.
      apply String.eqb_neq in Hnone. done.
  - intros Ht.
    pose proof (getVariant_disabled abTestConfig abTestRegistry rnd testId
                  userId e) as H.
    rewrite Ht in H. by apply H.
Qed.

Lemma getVariant_disabled_returns_default_witness :
  getVariant (platform := ExamplePlatform.instance) disabledConfig
    abTestRegistry (9 # 10) "mission-approach-test" None returningVisitor =
  (Ok (getDefaultVariant (Some missionABTest)), returningVisitor).
Proof.
  apply (proj1 (getVariant_disabled_returns_default
                  (platform := ExamplePlatform.instance) disabledConfig
                  abTestRegistry (9 # 10) "mission-approach-test" None
                  returningVisitor) missionABTest).
  - reflexivity.
  - right. reflexivity.
Defined.



(** C2: for an enabled test, with global testing enabled, once a variant
    id that exists among the test's variants is stored for the test, every
    later call of [getVariant] for the test returns exactly that variant,
    whatever the random draw and the visitor id, and leaves the stored
    assignment as it is. *)
Theorem getVariant_stored_assignment_stable {platform : Platform}
  (abTestConfig : ABTestConfig.t) (abTestRegistry : Registry)
  (testId : string) (test : ABTest.t) (variantId : string)
  (calls : list (Q * option string)) (e : Env) :
  getTestByIdFromRegistry abTestRegistry testId = Some test ->
  ABTest.enabled test = true ->
  ABTestConfig.enabled abTestConfig = true ->
  In variantId (map ABVariant.id (ABTest.variants test)) ->
  stored_assignment abTestConfig e testId (JS.Str variantId) ->
  exists v e',
    getVariantById test (JS.Str variantId) = Some v /\
    ABVariant.id v = variantId /\
    In v (ABTest.variants test) /\
    resolveRepeatedly abTestConfig abTestRegistry calls testId e =
      (Ok (replicate (length calls) (Some v)), e') /\
    ls_items e' = ls_items e /\
    document_cookie e' = document_cookie e /\
    stored_assignment abTestConfig e' testId (JS.Str variantId).
Proof.
  intros Ht Hen Hcfg Hin Hst.
  assert (Hvalid : isValidVariant test (JS.Str variantId) = true).
  { unfold isValidVariant. apply existsb_exists.
    apply in_map_iff in Hin as (v & Hid & Hv).
    exists v. split; [done|]. simpl. by apply String.eqb_eq. }
  destruct (isValidVariant_getVariantById _ _ Hvalid) as [v Hv].
  destruct (getVariantById_Some _ _ _ Hv) as [Hvin Hvid].
  exists v.
  assert (Hloop : forall e0, same_storage e e0 ->
    exists e', resolveRepeatedly abTestConfig abTestRegistry calls testId e0 =
                 (Ok (replicate (length calls) (Some v)), e') /\
               same_storage e e').
  { induction calls as [|[rnd userId] calls IH]; intros e0 Hs0.
    - exists e0. by split.
    - assert (Hst0 : stored_assignment abTestConfig e0 testId (JS.Str variantId)).
      { destruct Hst as [Hst Htr]. split; [|done].
        by rewrite (getStoredVariant_same_storage _ _ _ _ Hs0). }
      destruct (getVariant_stored abTestConfig abTestRegistry rnd testId userId
                  test _ e0 Ht Hen Hcfg Hst0 Hvalid) as (e1 & Hg & Hs1).
      destruct (IH e1) as (e2 & Hr & Hs2).
      { by eapply same_storage_trans. }
      exists e2. split; [|done].
      simpl. unfold bind. rewrite Hg, Hv, Hr. reflexivity. }
  destruct (Hloop e (same_storage_refl e)) as (e' & Hr & Hs).
  exists e'. repeat split; try done.
  - by destruct Hs as (_ & _ & _ & _ & ? & _ & _).
  - by destruct Hs as (_ & _ & _ & _ & _ & _ & ?).
  - destruct Hst as [Hst _].
    by rewrite (getStoredVariant_same_storage _ _ _ _ Hs).
  - by destruct Hst.
Qed.

Lemma getVariant_stored_assignment_stable_witness :
  exists v e',
    getVariantById missionABTest (JS.Str "aspirational") = Some v /\
    ABVariant.id v = "aspirational" /\
    In v (ABTest.variants missionABTest) /\
    resolveRepeatedly (platform := ExamplePlatform.instance) abTestConfig
      abTestRegistry [(1 # 10, None); (1 # 2, Some "visitor-7")]
      "mission-approach-test" returningVisitor =
      (Ok (replicate 2 (Some v)), e') /\
    ls_items e' = ls_items returningVisitor /\
    document_cookie e' = document_cookie returningVisitor /\
    stored_assignment (platform := ExamplePlatform.instance) abTestConfig e'
      "mission-approach-test" (JS.Str "aspirational").
Proof.
  apply (getVariant_stored_assignment_stable
           (platform := ExamplePlatform.instance) abTestConfig abTestRegistry
           "mission-approach-test" missionABTest "aspirational"
           [(1 # 10, None); (1 # 2, Some "visitor-7")] returningVisitor).
  - reflexivity.
  - reflexivity.
  - reflexivity.
  - simpl. right. left. reflexivity.
  - split; vm_compute; reflexivity.
Defined.

(** C5, as stated, fails for the empty visitor id: it is falsy, so the
    scalar comes from [Math.random()] and two calls can select different
    variants.  Outside the browser nothing is stored between the calls. *)
Lemma getVariant_empty_userId_not_deterministic :
  let first :=
    getVariant (platform := ExamplePlatform.instance) abTestConfig
      abTestRegistry (1 # 10) "mission-approach-test" (Some EmptyString)
      serverRender in
  let second :=
    getVariant (platform := ExamplePlatform.instance) abTestConfig
      abTestRegistry (9 # 10) "mission-approach-test" (Some EmptyString)
      (snd first) in
  no_stored_assignment (platform := ExamplePlatform.instance) abTestConfig
    serverRender "mission-approach-test" /\
  no_stored_assignment (platform := ExamplePlatform.instance) abTestConfig
    (snd first) "mission-approach-test" /\
  (exists v, fst first = Ok (Some v) /\ ABVariant.id v = "current") /\
  (exists v, fst second = Ok (Some v) /\ ABVariant.id v = "aspirational") /\
  fst first <> fst second.
Proof.
  cbv zeta. repeat split.
  - exists JS.Null. split; reflexivity.
  - exists JS.Null. split; reflexivity.
  - eexists. split; [vm_compute; reflexivity|reflexivity].
  - eexists. split; [vm_compute; reflexivity|reflexivity].
  - vm_compute. intros H. discriminate H.
Qed.

(** C5 (amended): for every fixed non-empty userId and every testId, two
    calls of [getVariant] made with no stored assignment select the same
    variant, whatever the browser state and whatever [Math.random()] would
    return: the selection is a function of the string userId + testId. *)
Theorem getVariant_hash_path_deterministic {platform : Platform}
  (abTestConfig : ABTestConfig.t) (abTestRegistry : Registry)
  (testId userId : string) (rnd1 rnd2 : Q) (e1 e2 : Env) :
  userId <> EmptyString ->
  no_stored_assignment abTestConfig e1 testId ->
  no_stored_assignment abTestConfig e2 testId ->
  fst (getVariant abTestConfig abTestRegistry rnd1 testId (Some userId) e1) =
  fst (getVariant abTestConfig abTestRegistry rnd2 testId (Some userId) e2) /\
  forall test,
    getTestByIdFromRegistry abTestRegistry testId = Some test ->
    selectionScalar rnd1 test (Some userId) =
      hashStringToNumber (userId ++ testId) /\
    selectionScalar rnd2 test (Some userId) =
      hashStringToNumber (userId ++ testId).
Proof.
  intros Hu (sv1 & Hsv1 & Hf1) (sv2 & Hsv2 & Hf2).
  assert (Hscalar : forall rnd test,
    getTestByIdFromRegistry abTestRegistry testId = Some test ->
    selectionScalar rnd test (Some userId) =
      hashStringToNumber (userId ++ testId)).
  { intros rnd test Ht. unfold selectionScalar.
    rewrite (truthyStr_nonempty _ Hu).
    by rewrite (getTestByIdFromRegistry_testId _ _ _ Ht). }
  split; [|by intros test Ht; split; apply Hscalar].
  destruct (getTestByIdFromRegistry abTestRegistry testId) as [test|] eqn:Ht.
  - destruct (ABTest.enabled test) eqn:Hen;
      [destruct (ABTestConfig.enabled abTestConfig) eqn:Hcfg|].
    + rewrite (getVariant_unassigned abTestConfig abTestRegistry rnd1 testId
                 (Some userId) test sv1 e1 Ht Hen Hcfg Hsv1)
        by (by rewrite Hf1).
      rewrite (getVariant_unassigned abTestConfig abTestRegistry rnd2 testId
                 (Some userId) test sv2 e2 Ht Hen Hcfg Hsv2)
        by (by rewrite Hf2).
      unfold assignVariantByWeight.
      by rewrite (Hscalar rnd1 test eq_refl), (Hscalar rnd2 test eq_refl).
    + pose proof (getVariant_disabled abTestConfig abTestRegistry) as H.
      rewrite !H; [done| |]; rewrite Ht; by right.
    + pose proof (getVariant_disabled abTestConfig abTestRegistry) as H.
      rewrite !H; [done| |]; rewrite Ht; by left.
  - pose proof (getVariant_disabled abTestConfig abTestRegistry) as H.
    rewrite !H; [done| |]; by rewrite Ht.
Qed.

Lemma getVariant_hash_path_deterministic_witness :
  fst (getVariant (platform := ExamplePlatform.instance) abTestConfig
         abTestRegistry (1 # 10) "mission-approach-test" (Some "visitor-7")
         serverRender) =
  fst (getVariant (platform := ExamplePlatform.instance) abTestConfig
         abTestRegistry (9 # 10) "mission-approach-test" (Some "visitor-7")
         freshBrowser).
Proof.
  apply (getVariant_hash_path_deterministic
           (platform := ExamplePlatform.instance) abTestConfig abTestRegistry
           "mission-approach-test" "visitor-7" (1 # 10) (9 # 10)
           serverRender freshBrowser).
  - intros H. discriminate H.
  - exists JS.Null. split; reflexivity.
  - exists JS.Null. split; reflexivity.
Defined.







Lemma obj_get_set (o : JS.object) (k k' : string) (v : JS.value) :
  JS.obj_get (JS.obj_set o k v) k' =
  if String.eqb k k' then Some v else JS.obj_get o k'.
Proof.
  induction o as [|[k0 v0] o IH]; simpl; [done|].
  destruct (String.eqb_spec k0 k) as [->|Hk0]; simpl.
  - by destruct (String.eqb_spec k k').
  - rewrite IH.
    destruct (String.eqb_spec k0 k') as [->|]; [|done].
    by destruct (String.eqb_spec k k').
Qed.

Lemma obj_get_absent (o : JS.object) (k : string) :
  ~ In k (map fst o) -> JS.obj_get o k = None.
Proof.
  induction o as [|[k0 v0] o IH]; simpl; [done|]. intros Hk.
  destruct (String.eqb_spec k0 k) as [->|]; [tauto|]. apply IH. tauto.
Qed.

(** Lookup in [{ ...a, ...b }]: the keys of [b] win. *)
Lemma obj_get_spread (b : JS.object) :
  forall (a : JS.object) (k : string),
    NoDup (map fst b) ->
    JS.obj_get (JS.spread a b) k =
    match JS.obj_get b k with
    | Some x => Some x
    | None => JS.obj_get a k
    end.
Proof.
  unfold JS.spread.
  induction b as [|[k1 v1] b IH]; intros a k Hnd; simpl; [done|].
  apply NoDup_cons in Hnd as [Hk1 Hnd].
  rewrite IH by done. rewrite obj_get_set.
  destruct (String.eqb_spec k1 k) as [->|]; [|done].
  rewrite obj_get_absent; [done|].
  intros Hin. apply Hk1. by apply list_elem_of_In.
Qed.



Section MalformedCookie.

Context {platform : Platform}.
Variable abTestConfig : ABTestConfig.t.

(** On a primary miss, an undecodable cookie is a cache miss. *)
Lemma getStoredVariant_malformed (testId payload : string) (e : Env) :
  fst (getCookie (ABTestConfig.cookieName abTestConfig) e) = Ok (Some payload) ->
  JSON_parse payload = None ->
  truthyStr (ls_items e !! ("ab_" ++ testId)) = None ->
  fst (getStoredVariant abTestConfig testId e) = Ok JS.Null.
Proof.
  intros Hc Hp Hl. unfold getStoredVariant.
  destruct (has_window e); simpl; [|done].
  mstep. destruct (ls_denied e); [done|]. rewrite Hl.
  destruct (getCookie _ e) as [r e1] eqn:Hg. simpl in Hc. subst r.
  destruct (getCookie_Some _ _ _ _ Hg) as (_ & Hne & _ & _).
  by rewrite (truthyStr_nonempty _ Hne), Hp.
Qed.

Lemma getStoredVariant_never_throws (testId : string) :
  never_throws (getStoredVariant abTestConfig testId).
Proof.
  intros e.
  destruct (getStoredVariant_run abTestConfig testId e) as (v & e' & H & _).
  eauto.
Qed.

End MalformedCookie.

(** C9: [getStoredVariant] and [storeVariant] never propagate an
    exception; an undecodable cookie payload makes [getStoredVariant]
    return none on a primary miss and makes [storeVariant] write the
    mapping rebuilt from the empty object; without a [window] every read
    returns none and every write does nothing. *)
Theorem storage_layer_swallows_failures {platform : Platform}
  (abTestConfig : ABTestConfig.t) (testId variantId : string) :
  never_throws (getStoredVariant abTestConfig testId) /\
  never_throws (storeVariant abTestConfig testId variantId) /\
  (forall e payload,
     fst (getCookie (ABTestConfig.cookieName abTestConfig) e)
       = Ok (Some payload) ->
     JSON_parse payload = None ->
     (truthyStr (ls_items e !! ("ab_" ++ testId)) = None ->
      fst (getStoredVariant abTestConfig testId e) = Ok JS.Null) /\
     (has_window e = true -> ls_denied e = false -> ls_full e = false ->
      storeVariant abTestConfig testId variantId e =
      (Ok tt,
       set_document_cookie
         (cookie_assign (document_cookie e)
            (ABTestConfig.cookieName abTestConfig ++ "=" ++
             JSON_stringify (JS.Obj [(testId, JS.Str variantId)]) ++
             ";expires=" ++
             Date_toUTCString
               (now e + ABTestConfig.cookieExpireDays abTestConfig
                        * 24 * 60 * 60 * 1000) ++
             ";path=/"))
         (set_ls_items (<["ab_" ++ testId := variantId]> (ls_items e)) e)))) /\
  (forall e,
     has_window e = false ->
     getStoredVariant abTestConfig testId e = (Ok JS.Null, e) /\
     storeVariant abTestConfig testId variantId e = (Ok tt, e)).
Proof.
  split; [apply getStoredVariant_never_throws|].
  split; [apply storeVariant_never_throws|].
  split.
  - intros e payload Hc Hp. split.
    + intros Hl. by apply getStoredVariant_malformed with payload.
    + intros Hw Hd Hf. by apply storeVariant_malformed with payload.
  - intros e Hw. split.
    + by apply getStoredVariant_no_window.
    + by apply storeVariant_no_window.
Qed.

Lemma storage_layer_swallows_failures_witness :
  (fst (getStoredVariant (platform := ExamplePlatform.instance) abTestConfig
          "hero-messaging-test" corruptCookieVisitor) = Ok JS.Null /\
   document_cookie
     (snd (storeVariant (platform := ExamplePlatform.instance) abTestConfig
             "hero-messaging-test" "original" corruptCookieVisitor)) =
   "warden_ab_variants=" ++
   ExamplePlatform.stringify (JS.Obj [("hero-messaging-test", JS.Str "original")])) /\
  getStoredVariant (platform := ExamplePlatform.instance) abTestConfig
    "hero-messaging-test" serverRender = (Ok JS.Null, serverRender) /\
  storeVariant (platform := ExamplePlatform.instance) abTestConfig
    "hero-messaging-test" "original" serverRender = (Ok tt, serverRender).
Proof.
  pose proof (storage_layer_swallows_failures
                (platform := ExamplePlatform.instance) abTestConfig
                "hero-messaging-test" "original") as (_ & _ & Hbad & Hssr).
  split.
  - destruct (Hbad corruptCookieVisitor "not-json") as [Hread Hwrite].
    + vm_compute. reflexivity.
    + reflexivity.
    + split.
      * apply Hread. reflexivity.
      * rewrite Hwrite by reflexivity. vm_compute. reflexivity.
  - apply Hssr. reflexivity.
Defined.

(* ================================================================== *)
(** ** The shipped registry                                            *)
(* ================================================================== *)

Lemma sumWeights_qualifying (vs : list ABVariant.t) :
  Forall (fun v => 0 <= ABVariant.weight v <= 100) vs ->
  sumWeights (List.filter (fun v => Z.ltb 0 (ABVariant.weight v)) vs) =
  sumWeights vs.
Proof.
  unfold sumWeights.
  induction 1 as [|v vs Hv _ IH]; simpl; [done|].
  destruct (Z.ltb_spec 0 (ABVariant.weight v)); simpl; lia.
Qed.

Lemma selectionScalar_le_1 (rnd : Q) (test : ABTest.t)
  (userId : option string) :
  (rnd <= 1)%Q -> (selectionScalar rnd test userId <= 1)%Q.
Proof.
  intros Hr. unfold selectionScalar.
  destruct (truthyStr userId); [|done].
  unfold hashStringToNumber. apply hashToUnit_bounds, hashCode_range.
Qed.

Lemma scaled_le_100 (q : Q) : (q <= 1)%Q -> (q * 100 <= inject_Z 100)%Q.
Proof.
  destruct q as [a b]. unfold Qle, Qmult, inject_Z. simpl. lia.
Qed.

Lemma filter_length_find {A} (f : A -> bool) (l : list A) :
  length (List.filter f l) = 1%nat -> find f l <> None.
Proof.
  induction l as [|a l IH]; simpl; [done|].
  destruct (f a); [done|]. exact IH.
Qed.

(** In a well-formed test the loop of [assignVariantByWeight] always
    returns, some variant qualifies, and the default variant exists. *)
Lemma wellFormed_guards_unreachable (test : ABTest.t) (rnd : Q)
  (userId : option string) :
  WellFormedTest test ->
  (rnd <= 1)%Q ->
  qualifying test <> [] /\
  walkVariants (selectionScalar rnd test userId * 100)%Q 0 (qualifying test)
    <> None /\
  getDefaultVariant (Some test) <> None.
Proof.
  intros [Hdef _ Hrange Htotal] Hr.
  pose proof (sumWeights_qualifying _ Hrange) as Hsum.
  fold (qualifying test) in Hsum. rewrite Htotal in Hsum.
  assert (Hne : qualifying test <> []).
  { intros Hq. rewrite Hq in Hsum. discriminate Hsum. }
  split; [done|]. split.
  - apply walkVariants_reaches; [done|].
    rewrite Hsum. apply scaled_le_100. by apply selectionScalar_le_1.
  - simpl. unfold getVariantById. by apply filter_length_find.
Qed.

Lemma heroABTest_wellFormed : WellFormedTest heroABTest.
Proof.
  split.
  - reflexivity.
  - apply (bool_decide_unpack _). vm_compute. exact I.
  - repeat constructor; simpl; lia.
  - reflexivity.
Qed.

Lemma missionABTest_wellFormed : WellFormedTest missionABTest.
Proof.
  split.
  - reflexivity.
  - apply (bool_decide_unpack _). vm_compute. exact I.
  - repeat constructor; simpl; lia.
  - reflexivity.
Qed.

Lemma ctaABTest_wellFormed : WellFormedTest ctaABTest.
Proof.
  split.
  - reflexivity.
  - apply (bool_decide_unpack _). vm_compute. exact I.
  - repeat constructor; simpl; lia.
  - reflexivity.
Qed.

(** C10: every test of the shipped registry (hero, mission, cta) is
    well-formed: its default variant id is the id of exactly one variant,
    the variant ids are unique, every weight lies in [0,100] and the
    weights sum to exactly 100; hence, for a scalar of at most 1, the
    selection loop always returns (the fall-through to the first variant is
    not reached) and the default variant always exists. *)
Theorem abTestRegistry_wellFormed :
  map fst abTestRegistry = ["hero"; "mission"; "cta"] /\
  Forall WellFormedTest (map snd abTestRegistry) /\
  forall test rnd userId,
    In test (map snd abTestRegistry) ->
    (rnd <= 1)%Q ->
    qualifying test <> [] /\
    walkVariants (selectionScalar rnd test userId * 100)%Q 0 (qualifying test)
      <> None /\
    getDefaultVariant (Some test) <> None.
Proof.
  assert (Hwf : Forall WellFormedTest (map snd abTestRegistry)).
  { constructor; [apply heroABTest_wellFormed|].
    constructor; [apply missionABTest_wellFormed|].
    constructor; [apply ctaABTest_wellFormed|constructor]. }
  split; [reflexivity|]. split; [exact Hwf|].
  intros test rnd userId Hin Hr.
  apply wellFormed_guards_unreachable; [|done].
  rewrite Forall_forall in Hwf. apply Hwf. by apply list_elem_of_In.
Qed.

Lemma abTestRegistry_wellFormed_witness :
  qualifying ctaABTest <> [] /\
  walkVariants (selectionScalar 1 ctaABTest (Some "visitor-7") * 100)%Q 0
    (qualifying ctaABTest) <> None /\
  getDefaultVariant (Some ctaABTest) <> None.
Proof.
  apply (proj2 (proj2 abTestRegistry_wellFormed) ctaABTest 1%Q
               (Some "visitor-7")).
  - simpl. right. right. left. reflexivity.
  - unfold Qle. simpl. lia.
Defined.

(* ================================================================== *)
(** ** Further properties of the selection                             *)
(* ================================================================== *)

Lemma toInt32_shift (x k : Z) :
  JS.toInt32 (x + k * 4294967296) = JS.toInt32 x.
Proof.
  unfold JS.toInt32. change (2 ^ 32) with 4294967296.
  replace (x + k * 4294967296 + 2 ^ 31)
    with (x + 2 ^ 31 + k * 4294967296) by lia.
  by rewrite Z.mod_add.
Qed.

Lemma toInt32_decompose (x : Z) :
  exists k, JS.toInt32 x = x + k * 4294967296.
Proof.
  unfold JS.toInt32. change (2 ^ 32) with 4294967296.
  exists (- ((x + 2 ^ 31) / 4294967296)).
  pose proof (Z.div_mod (x + 2 ^ 31) 4294967296). lia.
Qed.

(** [(hash << 5) - hash + char], reduced, is [31 * hash + char], reduced. *)
Lemma hashStep_poly (hash char : Z) :
  hashStep hash char = JS.toInt32 (31 * hash + char).
Proof.
  unfold hashStep. cbv zeta. rewrite Z.land_diag, Z.shiftl_mul_pow2 by lia.
  change (2 ^ 5) with 32.
  destruct (toInt32_decompose hash) as [k1 ->].
  destruct (toInt32_decompose ((hash + k1 * 4294967296) * 32)) as [k2 ->].
  replace ((hash + k1 * 4294967296) * 32 + k2 * 4294967296 - hash + char)
    with (31 * hash + char + (32 * k1 + k2) * 4294967296) by lia.
  apply toInt32_shift.
Qed.

Lemma hashStep_toInt32 (hash char : Z) :
  hashStep (JS.toInt32 hash) char = hashStep hash char.
Proof.
  rewrite !hashStep_poly.
  destruct (toInt32_decompose hash) as [k ->].
  replace (31 * (hash + k * 4294967296) + char)
    with (31 * hash + char + (31 * k) * 4294967296) by lia.
  apply toInt32_shift.
Qed.

Lemma fold_hashStep_poly (codes : list Z) :
  forall acc,
    fold_left hashStep codes (JS.toInt32 acc) =
    JS.toInt32 (fold_left (fun h c => 31 * h + c) codes acc).
Proof.
  induction codes as [|c codes IH]; intros acc; simpl; [done|].
  rewrite hashStep_toInt32, hashStep_poly. apply IH.
Qed.

(** X1: The loop of [hashStringToNumber] computes the base-31 polynomial hash
    of the code units, wrapped to a signed 32-bit integer; the hash of a
    concatenation continues the hash of its first part. *)
Theorem hashCode_is_polynomial_hash (codes more : list Z) :
  hashCode codes = JS.toInt32 (polyHash codes) /\
  hashCode (codes ++ more) = fold_left hashStep more (hashCode codes).
Proof.
  split.
  - unfold hashCode, polyHash.
    change 0 with (JS.toInt32 0) at 1. apply fold_hashStep_poly.
  - unfold hashCode. apply fold_left_app.
Qed.







(** X3: A variant returned by [assignVariantByWeight] is one of the test's
    variants, and it has a positive weight unless no variant has one, in
    which case it is the default variant: a variant of weight 0 is never
    allocated by weight. *)
Theorem assignVariantByWeight_member (rnd : Q) (test : ABTest.t)
  (userId : option string) (v : ABVariant.t) :
  assignVariantByWeight rnd test userId = Some v ->
  In v (ABTest.variants test) /\
  (0 < ABVariant.weight v \/
   (qualifying test = [] /\ ABVariant.id v = ABTest.defaultVariant test)).
Proof.
  intros Ha.
  pose proof (assignVariantByWeight_rule rnd test userId) as Hrule.
  cbv zeta in Hrule. rewrite Ha in Hrule.
  assert (Hq : forall w, In w (qualifying test) ->
                         In w (ABTest.variants test) /\ 0 < ABVariant.weight w).
  { intros w Hw. unfold qualifying in Hw. apply filter_In in Hw as [? Hw].
    split; [done|]. by apply Z.ltb_lt. }
  destruct (qualifying test) as [|first rest] eqn:Hvs.
  - symmetry in Hrule. apply getVariantById_Some in Hrule as [Hin Hid].
    split; [done|]. right. by split.
  - destruct Hrule as [(i & w & _ & Hi & [= ->])|[_ [= ->]]].
    + apply list_elem_of_lookup_2, list_elem_of_In in Hi.
      destruct (Hq _ Hi). split; [done|by left].
    + destruct (Hq first (or_introl eq_refl)). split; [done|by left].
Qed.

Lemma assignVariantByWeight_member_witness :
  In variantB (ABTest.variants scenarioTest) /\
  (0 < ABVariant.weight variantB \/
   (qualifying scenarioTest = [] /\
    ABVariant.id variantB = ABTest.defaultVariant scenarioTest)).
Proof.
  apply (assignVariantByWeight_member (9 # 10) scenarioTest None variantB).
  reflexivity.
Defined.

(* ================================================================== *)
(** ** Further properties of the storage layer                         *)
(* ================================================================== *)

Lemma string_append_assoc (s1 s2 s3 : string) :
  (s1 ++ s2) ++ s3 = s1 ++ s2 ++ s3.
Proof.
  induction s1 as [|c s1 IH]; [done|].
  change (String c ((s1 ++ s2) ++ s3) = String c (s1 ++ s2 ++ s3)).
  by rewrite IH.
Qed.

Lemma prefix_app (s1 s2 : string) : String.prefix s1 (s1 ++ s2) = true.
Proof.
  induction s1 as [|c s1 IH]; simpl; [by destruct s2|].
  destruct (ascii_dec c c); [exact IH|done].
Qed.

Lemma split_aux_skip (sep s1 : string) :
  forall cur s2,
    JS.split_aux sep (String.length s1) cur (s1 ++ s2) =
    JS.split_aux sep 0 cur s2.
Proof.
  induction s1 as [|c s1 IH]; intros cur s2; simpl; [by destruct s2|].
  apply IH.
Qed.

(** Splitting a text that starts with the separator yields an empty first
    piece followed by the pieces of the remainder. *)
Lemma split_leading_separator (c : ascii) (sep' rest : string) :
  JS.split (String c sep' ++ rest) (String c sep') =
  EmptyString :: JS.split rest (String c sep').
Proof.
  unfold JS.split.
  change (String c sep' ++ rest) with (String c (sep' ++ rest)).
  cbn [JS.split_aux].
  change (String c (sep' ++ rest)) with (String c sep' ++ rest).
  rewrite prefix_app. f_equal.
  replace (String.length (String c sep') - 1)%nat with (String.length sep')
    by (simpl; lia).
  apply split_aux_skip.
Qed.

Section StorageExtras.

Context {platform : Platform}.
Variable abTestConfig : ABTestConfig.t.

(** [storeVariant] keeps every property of the browser state that a
    write of its own localStorage key, a cookie assignment and a logged
    warning keep. *)
Lemma storeVariant_frame (P : Env -> Prop) (testId variantId : string) :
  (forall e, P e ->
     P (set_ls_items (<["ab_" ++ testId := variantId]> (ls_items e)) e)) ->
  (forall e c, P e -> P (set_document_cookie c e)) ->
  (forall e w, P e -> P (push_console_warn w e)) ->
  preserves P (storeVariant abTestConfig testId variantId).
Proof.
  intros Hls Hck Hwarn e HP. unfold storeVariant.
  destruct (has_window e); simpl; [|done].
  revert e HP. apply preserves_try_catch.
  2:{ intros x e HP. by apply Hwarn. }
  apply preserves_bind.
  { intros e HP. unfold localStorage_setItem.
    destruct (_ || _); simpl; [done|by apply Hls]. }
  intros _. apply preserves_bind.
  { intros e HP. by rewrite getCookie_env. }
  intros o. apply preserves_bind.
  { destruct (truthyStr o) as [payload|]; [|by intros e].
    apply preserves_try_catch; [|by intros x e].
    destruct (JSON_parse payload); by intros e. }
  intros variants. apply preserves_bind.
  { destruct variants; by intros e. }
  intros variants' e HP. unfold setCookie. mstep.
  destruct (has_document e); simpl; [|done].
  destruct (cookie_denied e); simpl; [done|by apply Hck].
Qed.

Lemma getStoredVariant_preserves (P : Env -> Prop) (testId : string) :
  (forall e w, P e -> P (push_console_warn w e)) ->
  preserves P (getStoredVariant abTestConfig testId).
Proof.
  intros Hwarn e HP.
  destruct (getStoredVariant_run abTestConfig testId e)
    as (v & e' & -> & [->|[w ->]]); simpl; [done|by apply Hwarn].
Qed.

Lemma trackAnalyticsEvent_preserves (P : Env -> Prop)
  (type : ABAnalyticsEventType) (testId : string) (variantId : JS.value)
  (metadata : option JS.object) :
  (forall e c, P e -> P (push_console_log c e)) ->
  (forall e c, P e -> P (push_va_call c e)) ->
  preserves P (trackAnalyticsEvent abTestConfig type testId variantId metadata).
Proof.
  intros Hlog Hva e HP. unfold trackAnalyticsEvent.
  destruct (ABTestConfig.analyticsEnabled abTestConfig); simpl; [|done].
  mstep.
  destruct (ABTestConfig.debugMode abTestConfig); simpl;
    destruct (has_window e), (has_va e); simpl; auto.
Qed.

(** X5: Round trip: what [storeVariant] writes for a test is what
    [getStoredVariant] reports for it next, provided the browser accepts
    the write and the id is not the empty string. *)
Theorem storeVariant_getStoredVariant_roundtrip (testId variantId : string)
  (e : Env) :
  has_window e = true -> ls_denied e = false -> ls_full e = false ->
  variantId <> EmptyString ->
  exists e',
    storeVariant abTestConfig testId variantId e = (Ok tt, e') /\
    getStoredVariant abTestConfig testId e' = (Ok (JS.Str variantId), e').
Proof.
  intros Hw Hd Hf Hne.
  destruct (storeVariant_never_throws abTestConfig testId variantId e)
    as ([] & e' & Hrun).
  exists e'. split; [done|].
  pose proof (storeVariant_then_read abTestConfig testId variantId e
                Hw Hd Hf Hne) as [Hst Htr].
  rewrite Hrun in Hst. simpl in Hst.
  destruct (getStoredVariant abTestConfig testId e') as [r e''] eqn:Hg.
  simpl in Hst. subst r.
  by rewrite (getStoredVariant_truthy_env _ _ _ _ _ Hg Htr).
Qed.

(** X6: When the localStorage write is refused, [storeVariant] gives up
    before it reaches the cookie: neither store changes, and the failure
    is only logged as a warning. *)
Theorem storeVariant_refused_write_skips_cookie (testId variantId : string)
  (e : Env) :
  has_window e = true ->
  ls_denied e || ls_full e = true ->
  storeVariant abTestConfig testId variantId e =
  (Ok tt,
   push_console_warn ("Error storing AB variant:", Some DOMException) e).
Proof.
  intros Hw Hfail. unfold storeVariant. rewrite Hw. simpl.
  unfold try_catch, bind at 1, localStorage_setItem. by rewrite Hfail.
Qed.


(** X8: Reading is read-only: [getStoredVariant] changes neither store and
    emits no analytics event, and its result is either null or truthy, so
    the caller's truthiness test loses nothing. *)
Theorem getStoredVariant_read_only (testId : string) (e : Env) :
  exists v e',
    getStoredVariant abTestConfig testId e = (Ok v, e') /\
    same_storage e e' /\ same_events e e' /\
    (v = JS.Null \/ JS.truthy v = true).
Proof.
  destruct (getStoredVariant_run abTestConfig testId e)
    as (v & e' & Hrun & He').
  exists v, e'. split; [done|]. split; [|split].
  - destruct He' as [->|[w ->]];
      [apply same_storage_refl|apply same_storage_warn].
  - destruct He' as [->|[w ->]];
      [apply same_events_refl|apply same_events_warn].
  - clear He'. revert Hrun. unfold getStoredVariant.
    destruct (has_window e); simpl; [|intros [= <- _]; by left].
    pose proof (getCookie_env (ABTestConfig.cookieName abTestConfig) e) as Hc.
    mstep.
    destruct (ls_denied e); [intros [= <- _]; by left|].
    destruct (truthyStr (ls_items e !! ("ab_" ++ testId))) as [s|] eqn:Hs.
    { intros [= <- _]. right. apply truthyStr_Some in Hs as [_ Hs].
      simpl. by destruct (String.eqb_spec s EmptyString). }
    destruct (getCookie _ e) as [[o|x] e1]; simpl in Hc; subst e1;
      [|intros [= <- _]; by left].
    destruct (truthyStr o) as [payload|]; [|intros [= <- _]; by left].
    destruct (JSON_parse payload) as [variants|];
      [|intros [= <- _]; by left].
    destruct variants; mstep; try (intros [= <- _]; by left).
    intros [= <- _]. unfold JS.or.
    destruct (JS.truthy (default JS.Undefined (JS.obj_get props testId)))
      eqn:Ht; [by right|by left].
Qed.

(** X9: Reading a cookie that stands first in the jar: the text after
    [name=] is cut at its first semicolon; if the same [; name=] occurs
    again later in the jar, the read yields null. *)
Theorem getCookie_first_in_jar (name rest : string) (e : Env) :
  has_document e = true -> cookie_denied e = false ->
  document_cookie e = name ++ "=" ++ rest ->
  getCookie name e =
  (Ok (match JS.split rest ("; " ++ name ++ "=") with
       | [value] => truthyStr (head (JS.split value ";"))
       | _ => None
       end), e).
Proof.
  intros Hd Hcd Hjar. unfold getCookie. rewrite Hd. simpl.
  mstep. rewrite Hcd, Hjar.
  replace ("; " ++ name ++ "=" ++ rest)
    with (String ";" (" " ++ name ++ "=") ++ rest).
  2:{ change (String ";" (" " ++ name ++ "=")) with ("; " ++ (name ++ "=")).
      by rewrite !string_append_assoc. }
  change ("; " ++ name ++ "=") with (String ";" (" " ++ name ++ "=")).
  rewrite split_leading_separator.
  destruct (JS.split rest (String ";" (" " ++ name ++ "="))) as [|v [|v' l]];
    reflexivity.
Qed.

End StorageExtras.

Lemma storeVariant_getStoredVariant_roundtrip_witness :
  exists e',
    storeVariant (platform := ExamplePlatform.instance) abTestConfig
      "cta-messaging-test" "tech-focus" mirroredVisitor = (Ok tt, e') /\
    getStoredVariant (platform := ExamplePlatform.instance) abTestConfig
      "cta-messaging-test" e' = (Ok (JS.Str "tech-focus"), e').
Proof.
  apply (storeVariant_getStoredVariant_roundtrip
           (platform := ExamplePlatform.instance) abTestConfig
           "cta-messaging-test" "tech-focus" mirroredVisitor).
  - reflexivity.
  - reflexivity.
  - reflexivity.
  - intros H. discriminate H.
Defined.

Lemma storeVariant_refused_write_skips_cookie_witness :
  storeVariant (platform := ExamplePlatform.instance) abTestConfig
    "cta-messaging-test" "tech-focus" quotaExceededBrowser =
  (Ok tt,
   push_console_warn ("Error storing AB variant:", Some DOMException)
     quotaExceededBrowser).
Proof.
  apply (storeVariant_refused_write_skips_cookie
           (platform := ExamplePlatform.instance) abTestConfig
           "cta-messaging-test" "tech-focus" quotaExceededBrowser).
  - reflexivity.
  - reflexivity.
Defined.


Lemma getCookie_first_in_jar_witness :
  getCookie "warden_ab_variants" mirroredVisitor =
  (Ok (Some (ExamplePlatform.stringify
               (JS.Obj [("hero-messaging-test", JS.Str "original")]))),
   mirroredVisitor).
Proof.
  rewrite (getCookie_first_in_jar "warden_ab_variants"
             (ExamplePlatform.stringify
                (JS.Obj [("hero-messaging-test", JS.Str "original")]))
             mirroredVisitor eq_refl eq_refl eq_refl).
  reflexivity.
Defined.

(* ================================================================== *)
(** ** Further properties of resolution and tracking                   *)
(* ================================================================== *)

Lemma getVariantById_In (test : ABTest.t) (x : JS.value) (v : ABVariant.t) :
  getVariantById test x = Some v ->
  In v (ABTest.variants test) /\ x = JS.Str (ABVariant.id v).
Proof.
  unfold getVariantById. intros H. apply find_some in H as [Hin Heq].
  split; [done|]. destruct x; try done. simpl in Heq.
  apply String.eqb_eq in Heq. by subst.
Qed.

Lemma assignVariantByWeight_In (rnd : Q) (test : ABTest.t)
  (userId : option string) (v : ABVariant.t) :
  assignVariantByWeight rnd test userId = Some v ->
  In v (ABTest.variants test).
Proof.
  intros Ha.
  pose proof (assignVariantByWeight_rule rnd test userId) as Hrule.
  cbv zeta in Hrule. rewrite Ha in Hrule.
  assert (Hq : forall w, In w (qualifying test) -> In w (ABTest.variants test)).
  { intros w Hw. unfold qualifying in Hw. by apply filter_In in Hw as [? _]. }
  destruct (qualifying test) as [|first rest] eqn:Hvs.
  - symmetry in Hrule. by apply getVariantById_Some in Hrule as [Hin _].
  - destruct Hrule as [(i & w & _ & Hi & [= ->])|[_ [= ->]]].
    + by apply Hq, list_elem_of_In, list_elem_of_lookup_2 with i.
    + apply Hq. by left.
Qed.

Lemma In_isValidVariant (test : ABTest.t) (v : ABVariant.t) :
  In v (ABTest.variants test) ->
  isValidVariant test (JS.Str (ABVariant.id v)) = true.
Proof.
  intros Hin. unfold isValidVariant. apply existsb_exists.
  exists v. split; [done|]. simpl. apply String.eqb_refl.
Qed.

Lemma NoDup_ids_eq (vs : list ABVariant.t) (v w : ABVariant.t) :
  NoDup (map ABVariant.id vs) ->
  In v vs -> In w vs -> ABVariant.id v = ABVariant.id w -> v = w.
Proof.
  induction vs as [|x vs IH]; simpl; [done|].
  intros Hnd [->|Hv] [->|Hw] Hid; try done.
  - apply NoDup_cons in Hnd as [Hx _]. exfalso. apply Hx.
    rewrite Hid. apply list_elem_of_In, in_map. done.
  - apply NoDup_cons in Hnd as [Hx _]. exfalso. apply Hx.
    rewrite <- Hid. apply list_elem_of_In, in_map. done.
  - apply NoDup_cons in Hnd as [_ Hnd]. by apply IH.
Qed.

Section ResolutionExtras.

Context {platform : Platform}.
Variable abTestConfig : ABTestConfig.t.
Variable abTestRegistry : Registry.

(** The three ways an enabled resolution ends, with the browser state
    each leaves behind. *)
Lemma getVariant_enabled (rnd : Q) (testId : string) (userId : option string)
  (test : ABTest.t) (stored : JS.value) (e e1 : Env) :
  getTestByIdFromRegistry abTestRegistry testId = Some test ->
  ABTest.enabled test = true ->
  ABTestConfig.enabled abTestConfig = true ->
  getStoredVariant abTestConfig testId e = (Ok stored, e1) ->
  getVariant abTestConfig abTestRegistry rnd testId userId e =
  if JS.truthy stored && isValidVariant test stored
  then (Ok (getVariantById test stored),
        snd (trackAnalyticsEvent abTestConfig VARIANT_VIEWED testId stored
               None e1))
  else match assignVariantByWeight rnd test userId with
       | Some v =>
           (Ok (Some v),
            snd (trackAnalyticsEvent abTestConfig VARIANT_ASSIGNED testId
                   (JS.Str (ABVariant.id v)) None
                   (snd (storeVariant abTestConfig testId (ABVariant.id v)
                           e1))))
       | None => (Ok None, e1)
       end.
Proof.
  intros Ht Hen Hcfg Hg.
  unfold getVariant. rewrite Ht, Hen, Hcfg. simpl. unfold bind. rewrite Hg.
  destruct (JS.truthy stored && isValidVariant test stored).
  - by destruct (trackAnalyticsEvent_run abTestConfig VARIANT_VIEWED testId
                   stored None e1) as (e2 & -> & _).
  - destruct (assignVariantByWeight rnd test userId) as [v|] eqn:Ha.
    + destruct (storeVariant_never_throws abTestConfig testId
                  (ABVariant.id v) e1) as ([] & e2 & ->).
      cbn [snd].
      by destruct (trackAnalyticsEvent_run abTestConfig VARIANT_ASSIGNED
                     testId (JS.Str (ABVariant.id v)) None e2)
        as (e3 & -> & _).
    + apply assignVariantByWeight_None in Ha. simpl in Ha.
      unfold ret. by rewrite Ha.
Qed.

Lemma getVariant_result_In (rnd : Q) (testId : string)
  (userId : option string) (test : ABTest.t) (v : ABVariant.t) (e e' : Env) :
  getTestByIdFromRegistry abTestRegistry testId = Some test ->
  getVariant abTestConfig abTestRegistry rnd testId userId e
    = (Ok (Some v), e') ->
  In v (ABTest.variants test).
Proof.
  intros Ht Hrun.
  destruct (ABTest.enabled test) eqn:Hen;
    [destruct (ABTestConfig.enabled abTestConfig) eqn:Hcfg|].
  - destruct (getStoredVariant_run abTestConfig testId e)
      as (sv & e1 & Hg & _).
    rewrite (getVariant_enabled rnd testId userId test sv e e1 Ht Hen Hcfg Hg)
      in Hrun.
    destruct (JS.truthy sv && isValidVariant test sv).
    + injection Hrun as Hr _. by apply getVariantById_In in Hr as [? _].
    + destruct (assignVariantByWeight rnd test userId) as [w|] eqn:Ha;
        [|done].
      injection Hrun as -> _. by eapply assignVariantByWeight_In.
  - rewrite getVariant_disabled in Hrun by (rewrite Ht; by right).
    rewrite Ht in Hrun. injection Hrun as Hr _.
    by apply getVariantById_Some in Hr as [? _].
  - rewrite getVariant_disabled in Hrun by (rewrite Ht; by left).
    rewrite Ht in Hrun. injection Hrun as Hr _.
    by apply getVariantById_Some in Hr as [? _].
Qed.

(** After an enabled resolution in a browser whose storage works, the
    returned variant is the stored assignment. *)
Lemma getVariant_leaves_assignment (rnd : Q) (testId : string)
  (userId : option string) (test : ABTest.t) (v : ABVariant.t) (e e' : Env) :
  getTestByIdFromRegistry abTestRegistry testId = Some test ->
  ABTest.enabled test = true ->
  ABTestConfig.enabled abTestConfig = true ->
  storage_works e ->
  getVariant abTestConfig abTestRegistry rnd testId userId e
    = (Ok (Some v), e') ->
  ABVariant.id v <> EmptyString ->
  stored_assignment abTestConfig e' testId (JS.Str (ABVariant.id v)) /\
  storage_works e'.
Proof.
  intros Ht Hen Hcfg (Hw & Hd & Hf) Hrun Hid.
  destruct (getStoredVariant abTestConfig testId e) as [r e1] eqn:Hg.
  destruct (getStoredVariant_run abTestConfig testId e)
    as (sv & e1' & Hg' & He1).
  rewrite Hg in Hg'. injection Hg' as -> <-.
  rewrite (getVariant_enabled rnd testId userId test sv e e1 Ht Hen Hcfg Hg)
    in Hrun.
  assert (Hworks1 : has_window e1 = true /\ ls_denied e1 = false /\
                    ls_full e1 = false).
  { by destruct He1 as [->|[w ->]]. }
  destruct (JS.truthy sv && isValidVariant test sv) eqn:Hvalid.
  - apply andb_true_iff in Hvalid as [Htr _].
    injection Hrun as Hr He'.
    apply getVariantById_In in Hr as [_ ->].
    pose proof (getStoredVariant_truthy_env _ _ _ _ _ Hg Htr) as ->.
    destruct (trackAnalyticsEvent_run abTestConfig VARIANT_VIEWED testId
                (JS.Str (ABVariant.id v)) None e) as (e2 & Hrun2 & Hs & _).
    rewrite Hrun2 in He'. simpl in He'. subst e2.
    split.
    + split; [|done].
      rewrite (getStoredVariant_same_storage _ _ _ _ Hs). by rewrite Hg.
    + unfold storage_works. destruct Hs as (Ha & _ & Hb & Hc & _).
      by rewrite Ha, Hb, Hc.
  - destruct (assignVariantByWeight rnd test userId) as [w|] eqn:Ha; [|done].
    injection Hrun as -> He'.
    destruct Hworks1 as (Hw1 & Hd1 & Hf1).
    pose proof (storeVariant_then_read abTestConfig testId (ABVariant.id v) e1
                  Hw1 Hd1 Hf1 Hid) as [Hst Htr].
    set (e2 := snd (storeVariant abTestConfig testId (ABVariant.id v) e1))
      in *.
    assert (Hworks2 : storage_works e2).
    { apply (storeVariant_frame abTestConfig storage_works testId
               (ABVariant.id v)); try done. }
    destruct (trackAnalyticsEvent_run abTestConfig VARIANT_ASSIGNED testId
                (JS.Str (ABVariant.id v)) None e2) as (e3 & Hrun3 & Hs & _).
    rewrite Hrun3 in He'. simpl in He'. subst e3.
    split.
    + split; [|done].
      by rewrite (getStoredVariant_same_storage _ _ _ _ Hs).
    + destruct Hworks2 as (? & ? & ?). unfold storage_works.
      destruct Hs as (Hsa & _ & Hsb & Hsc & _).
      by rewrite Hsa, Hsb, Hsc.
Qed.

End ResolutionExtras.

(** X10: Whatever path resolution takes, a variant it returns belongs to the
    test registered under the requested id. *)
Theorem getVariant_returns_variant_of_test {platform : Platform}
  (abTestConfig : ABTestConfig.t) (abTestRegistry : Registry)
  (rnd : Q) (testId : string) (userId : option string)
  (v : ABVariant.t) (e e' : Env) :
  getVariant abTestConfig abTestRegistry rnd testId userId e
    = (Ok (Some v), e') ->
  exists test,
    getTestByIdFromRegistry abTestRegistry testId = Some test /\
    ABTest.testId test = testId /\
    In v (ABTest.variants test).
Proof.
  intros Hrun.
  destruct (getTestByIdFromRegistry abTestRegistry testId) as [test|] eqn:Ht.
  - exists test. split; [done|]. split.
    + by eapply getTestByIdFromRegistry_testId.
    + by eapply getVariant_result_In.
  - rewrite getVariant_disabled in Hrun by (by rewrite Ht).
    rewrite Ht in Hrun. discriminate Hrun.
Qed.

Lemma getVariant_returns_variant_of_test_witness :
  exists test,
    getTestByIdFromRegistry scenarioRegistry "t" = Some test /\
    ABTest.testId test = "t" /\
    In variantB (ABTest.variants test).
Proof.
  apply (getVariant_returns_variant_of_test
           (platform := ExamplePlatform.instance) abTestConfig
           scenarioRegistry (9 # 10) "t" None variantB freshBrowser
           (snd (getVariant (platform := ExamplePlatform.instance)
                   abTestConfig scenarioRegistry (9 # 10) "t" None
                   freshBrowser))).
  vm_compute. reflexivity.
Defined.

(** X11: The first resolution makes the assignment permanent: in a browser
    whose storage works, once an enabled test has resolved to a variant
    with a non-empty id, the next resolution returns a variant with the
    same id, whatever the random draw and the visitor id of either call;
    it is the same variant when the ids of the test are unique. *)
Theorem getVariant_assignment_sticks {platform : Platform}
  (abTestConfig : ABTestConfig.t) (abTestRegistry : Registry)
  (rnd1 rnd2 : Q) (testId : string) (userId1 userId2 : option string)
  (test : ABTest.t) (v : ABVariant.t) (e e1 : Env) :
  getTestByIdFromRegistry abTestRegistry testId = Some test ->
  ABTest.enabled test = true ->
  ABTestConfig.enabled abTestConfig = true ->
  storage_works e ->
  getVariant abTestConfig abTestRegistry rnd1 testId userId1 e
    = (Ok (Some v), e1) ->
  ABVariant.id v <> EmptyString ->
  exists v' e2,
    getVariant abTestConfig abTestRegistry rnd2 testId userId2 e1
      = (Ok (Some v'), e2) /\
    ABVariant.id v' = ABVariant.id v /\
    (NoDup (map ABVariant.id (ABTest.variants test)) -> v' = v).
Proof.
  intros Ht Hen Hcfg Hworks Hrun Hid.
  pose proof (getVariant_result_In _ _ _ _ _ _ _ _ _ Ht Hrun) as Hin.
  destruct (getVariant_leaves_assignment _ _ _ _ _ _ _ _ _ Ht Hen Hcfg Hworks
              Hrun Hid) as [Hst _].
  pose proof (In_isValidVariant _ _ Hin) as Hvalid.
  destruct (getVariant_stored abTestConfig abTestRegistry rnd2 testId userId2
              test _ e1 Ht Hen Hcfg Hst Hvalid) as (e2 & Hrun2 & _).
  destruct (isValidVariant_getVariantById _ _ Hvalid) as [v' Hv'].
  destruct (getVariantById_Some _ _ _ Hv') as [Hin' Hid'].
  exists v', e2. rewrite Hrun2, Hv'. split; [done|]. split; [done|].
  intros Hnd. by eapply NoDup_ids_eq.
Qed.

Lemma getVariant_assignment_sticks_witness :
  exists v' e2,
    getVariant (platform := ExamplePlatform.instance) abTestConfig
      scenarioRegistry (1 # 10) "t" (Some "visitor-7")
      (snd (getVariant (platform := ExamplePlatform.instance) abTestConfig
              scenarioRegistry (9 # 10) "t" None freshBrowser))
      = (Ok (Some v'), e2) /\
    ABVariant.id v' = ABVariant.id variantB /\
    (NoDup (map ABVariant.id (ABTest.variants scenarioTest)) -> v' = variantB).
Proof.
  apply (getVariant_assignment_sticks
           (platform := ExamplePlatform.instance) abTestConfig
           scenarioRegistry (9 # 10) (1 # 10) "t" None (Some "visitor-7")
           scenarioTest variantB freshBrowser).
  - reflexivity.
  - reflexivity.
  - reflexivity.
  - by repeat split.
  - vm_compute. reflexivity.
  - intros H. discriminate H.
Defined.

(** X12: An enabled resolution reports itself to the analytics sink exactly
    once when it returns a variant and the sink is reachable: as "viewed"
    when the stored assignment was used, as "assigned" when the variant
    was newly selected, each time naming the returned variant; it reports
    nothing when it returns null. *)
Theorem getVariant_emits_one_event {platform : Platform}
  (abTestConfig : ABTestConfig.t) (abTestRegistry : Registry)
  (rnd : Q) (testId : string) (userId : option string) (test : ABTest.t)
  (stored : JS.value) (r : option ABVariant.t) (e e' : Env) :
  getTestByIdFromRegistry abTestRegistry testId = Some test ->
  ABTest.enabled test = true ->
  ABTestConfig.enabled abTestConfig = true ->
  fst (getStoredVariant abTestConfig testId e) = Ok stored ->
  getVariant abTestConfig abTestRegistry rnd testId userId e = (Ok r, e') ->
  va_calls e' =
  (va_calls e ++
   match r with
   | Some v =>
       if ABTestConfig.analyticsEnabled abTestConfig
          && has_window e && has_va e
       then [("track",
              eventName (if JS.truthy stored && isValidVariant test stored
                         then VARIANT_VIEWED else VARIANT_ASSIGNED),
              [("test_id", JS.Str testId);
               ("variant_id", JS.Str (ABVariant.id v))])]
       else []
   | None => []
   end)%list.
Proof.
  intros Ht Hen Hcfg Hst Hrun.
  destruct (getStoredVariant abTestConfig testId e) as [r0 e1] eqn:Hg.
  simpl in Hst. subst r0.
  rewrite (getVariant_enabled abTestConfig abTestRegistry rnd testId userId
             test stored e e1 Ht Hen Hcfg Hg) in Hrun.
  assert (He1 : has_window e1 = has_window e /\ has_va e1 = has_va e /\
                va_calls e1 = va_calls e).
  { destruct (getStoredVariant_run abTestConfig testId e)
      as (sv & e1' & Hg' & He1).
    rewrite Hg in Hg'. injection Hg' as _ <-.
    by destruct He1 as [->|[w ->]]. }
  destruct (JS.truthy stored && isValidVariant test stored) eqn:Hvalid.
  - injection Hrun as <- <-.
    apply andb_true_iff in Hvalid as [_ Hvalid].
    destruct (isValidVariant_getVariantById _ _ Hvalid) as [v Hv].
    rewrite Hv. apply getVariantById_In in Hv as [_ ->].
    destruct (trackAnalyticsEvent_run abTestConfig VARIANT_VIEWED testId
                (JS.Str (ABVariant.id v)) None e1) as (e2 & -> & _ & Hva & _).
    simpl. rewrite Hva.
    destruct He1 as (-> & -> & ->). reflexivity.
  - destruct (assignVariantByWeight rnd test userId) as [v|] eqn:Ha.
    + injection Hrun as <- <-.
      set (e2 := snd (storeVariant abTestConfig testId (ABVariant.id v) e1)).
      assert (He2 : has_window e2 = has_window e /\ has_va e2 = has_va e /\
                    va_calls e2 = va_calls e).
      { apply (storeVariant_frame abTestConfig
                 (fun e0 => has_window e0 = has_window e /\
                            has_va e0 = has_va e /\
                            va_calls e0 = va_calls e)
                 testId (ABVariant.id v)); done. }
      destruct (trackAnalyticsEvent_run abTestConfig VARIANT_ASSIGNED testId
                  (JS.Str (ABVariant.id v)) None e2)
        as (e3 & -> & _ & Hva & _).
      simpl. rewrite Hva.
      destruct He2 as (-> & -> & ->). reflexivity.
    + injection Hrun as <- <-. destruct He1 as (_ & _ & ->).
      by rewrite app_nil_r.
Qed.

Lemma getVariant_emits_one_event_witness :
  va_calls (snd (getVariant (platform := ExamplePlatform.instance)
                   abTestConfig scenarioRegistry (9 # 10) "t" None
                   freshBrowser)) =
  [("track", "ab_variant_assigned",
    [("test_id", JS.Str "t"); ("variant_id", JS.Str "B")])].
Proof.
  apply (getVariant_emits_one_event
           (platform := ExamplePlatform.instance) abTestConfig
           scenarioRegistry (9 # 10) "t" None scenarioTest JS.Null
           (Some variantB) freshBrowser
           (snd (getVariant (platform := ExamplePlatform.instance)
                   abTestConfig scenarioRegistry (9 # 10) "t" None
                   freshBrowser))).
  - reflexivity.
  - reflexivity.
  - reflexivity.
  - reflexivity.
  - vm_compute. reflexivity.
Defined.

Lemma getVariant_preserves {platform : Platform}
  (abTestConfig : ABTestConfig.t) (abTestRegistry : Registry)
  (P : Env -> Prop) (rnd : Q) (testId : string) (userId : option string) :
  (forall e w, P e -> P (push_console_warn w e)) ->
  (forall e c, P e -> P (set_document_cookie c e)) ->
  (forall e c, P e -> P (push_console_log c e)) ->
  (forall e c, P e -> P (push_va_call c e)) ->
  (forall e v, P e ->
     P (set_ls_items (<["ab_" ++ testId := v]> (ls_items e)) e)) ->
  preserves P (getVariant abTestConfig abTestRegistry rnd testId userId).
Proof.
  intros Hwarn Hck Hlog Hva Hls. unfold getVariant.
  destruct (getTestByIdFromRegistry abTestRegistry testId) as [test|];
    [|by intros e].
  destruct (negb _ || negb _); [by intros e|].
  apply preserves_bind; [by apply getStoredVariant_preserves|].
  intros sv. destruct (JS.truthy sv && isValidVariant test sv).
  - apply preserves_bind; [by apply trackAnalyticsEvent_preserves|].
    by intros _ e.
  - destruct (assignVariantByWeight rnd test userId) as [v|]; [|by intros e].
    apply preserves_bind; [apply storeVariant_frame; auto|].
    intros _. apply preserves_bind; [by apply trackAnalyticsEvent_preserves|].
    by intros _ e.
Qed.

(** X13: The analytics switch is a kill switch: with [analyticsEnabled] off,
    neither resolution nor conversion or interaction tracking calls the
    sink or writes an event to the debug log. *)
Theorem analytics_disabled_emits_nothing {platform : Platform}
  (abTestConfig : ABTestConfig.t) (abTestRegistry : Registry)
  (rnd : Q) (testId : string) (userId conversionType : option string)
  (interactionType : string) (metadata : option JS.object) (e : Env) :
  ABTestConfig.analyticsEnabled abTestConfig = false ->
  same_events e
    (snd (getVariant abTestConfig abTestRegistry rnd testId userId e)) /\
  same_events e
    (snd (trackConversion abTestConfig testId conversionType metadata e)) /\
  same_events e
    (snd (trackInteraction abTestConfig testId interactionType metadata e)).
Proof.
  intros Hoff.
  assert (Htrack : forall ty t v md,
    quiet (trackAnalyticsEvent abTestConfig ty t v md)).
  { intros ty t v md e0. unfold trackAnalyticsEvent. rewrite Hoff. simpl.
    apply same_events_refl. }
  assert (Hread : forall t, quiet (getStoredVariant abTestConfig t)).
  { intros t e0.
    destruct (getStoredVariant_run abTestConfig t e0)
      as (v & e' & -> & [->|[w ->]]);
      [apply same_events_refl|apply same_events_warn]. }
  split; [|split].
  - revert e. change (quiet (getVariant abTestConfig abTestRegistry rnd testId
                               userId)).
    unfold getVariant.
    destruct (getTestByIdFromRegistry abTestRegistry testId) as [test|];
      [|by intros e].
    destruct (negb _ || negb _); [by intros e|].
    apply quiet_bind; [apply Hread|].
    intros sv. destruct (JS.truthy sv && isValidVariant test sv).
    + apply quiet_bind; [apply Htrack|]. by intros _ e.
    + destruct (assignVariantByWeight rnd test userId) as [v|];
        [|by intros e].
      apply quiet_bind; [apply storeVariant_quiet|].
      intros _. apply quiet_bind; [apply Htrack|]. by intros _ e.
  - revert e. apply quiet_bind; [apply Hread|].
    intros v. destruct (JS.truthy v); [apply Htrack|by intros e].
  - revert e. apply quiet_bind; [apply Hread|].
    intros v. destruct (JS.truthy v); [apply Htrack|by intros e].
Qed.

(** X14: What reaches the sink: the payload carries [test_id] and
    [variant_id], but the caller's metadata is spread over them, so a
    metadata key named [test_id] or [variant_id] replaces the real
    value. *)
Theorem trackAnalyticsEvent_payload
  (abTestConfig : ABTestConfig.t) (type : ABAnalyticsEventType)
  (testId : string) (variantId : JS.value) (metadata : JS.object) (e : Env) :
  ABTestConfig.analyticsEnabled abTestConfig = true ->
  has_window e = true -> has_va e = true ->
  NoDup (map fst metadata) ->
  exists payload,
    va_calls (snd (trackAnalyticsEvent abTestConfig type testId variantId
                     (Some metadata) e)) =
      (va_calls e ++ [("track", eventName type, payload)])%list /\
    forall k,
      JS.obj_get payload k =
      match JS.obj_get metadata k with
      | Some x => Some x
      | None =>
          if String.eqb "test_id" k then Some (JS.Str testId)
          else if String.eqb "variant_id" k then Some variantId
          else None
      end.
Proof.
  intros Hon Hw Hva Hnd.
  destruct (trackAnalyticsEvent_run abTestConfig type testId variantId
              (Some metadata) e) as (e' & -> & _ & Hcalls & _).
  rewrite Hon, Hw, Hva in Hcalls. simpl in Hcalls.
  eexists. split; [exact Hcalls|].
  intros k. rewrite obj_get_spread by done. reflexivity.
Qed.

Lemma trackAnalyticsEvent_payload_witness :
  exists payload,
    va_calls (snd (trackAnalyticsEvent
                     abTestConfig VARIANT_CONVERSION "cta-messaging-test"
                     (JS.Str "tech-focus")
                     (Some [("variant_id", JS.Str "spoofed")])
                     freshBrowser)) =
      [("track", "ab_variant_conversion", payload)] /\
    JS.obj_get payload "variant_id" = Some (JS.Str "spoofed").
Proof.
  destruct (trackAnalyticsEvent_payload abTestConfig
              VARIANT_CONVERSION "cta-messaging-test" (JS.Str "tech-focus")
              [("variant_id", JS.Str "spoofed")] freshBrowser
              eq_refl eq_refl eq_refl)
    as (payload & Hcalls & Hget).
  - simpl. apply NoDup_cons. split; [apply not_elem_of_nil|apply NoDup_nil_2].
  - exists payload. split; [exact Hcalls|]. rewrite Hget. reflexivity.
Defined.

Lemma analytics_disabled_emits_nothing_witness :
  same_events freshBrowser
    (snd (getVariant (platform := ExamplePlatform.instance)
            (ABTestConfig.mk true "warden_ab_variants" 30 false true [])
            abTestRegistry (1 # 2) "hero-messaging-test" None freshBrowser)).
Proof.
  apply (analytics_disabled_emits_nothing
           (platform := ExamplePlatform.instance)
           (ABTestConfig.mk true "warden_ab_variants" 30 false true [])
           abTestRegistry (1 # 2) "hero-messaging-test" None None "hover"
           None freshBrowser).
  reflexivity.
Defined.

(** X15: Tests are isolated in the primary store: resolving one test never
    changes the localStorage entry of another test. *)
Theorem getVariant_leaves_other_tests_alone {platform : Platform}
  (abTestConfig : ABTestConfig.t) (abTestRegistry : Registry)
  (rnd : Q) (testId other : string) (userId : option string) (e : Env) :
  other <> testId ->
  ls_items (snd (getVariant abTestConfig abTestRegistry rnd testId userId e))
    !! ("ab_" ++ other)
  = ls_items e !! ("ab_" ++ other).
Proof.
  intros Hne.
  apply (getVariant_preserves abTestConfig abTestRegistry
           (fun e0 => ls_items e0 !! ("ab_" ++ other)
                      = ls_items e !! ("ab_" ++ other))); try done.
  intros e0 v He0. simpl. rewrite lookup_insert_ne; [done|].
  intros Heq. apply Hne. by injection Heq.
Qed.

Lemma getVariant_leaves_other_tests_alone_witness :
  ls_items (snd (getVariant (platform := ExamplePlatform.instance)
                   abTestConfig abTestRegistry (1 # 2) "hero-messaging-test"
                   None returningVisitor))
    !! ("ab_" ++ "mission-approach-test")
  = ls_items returningVisitor !! ("ab_" ++ "mission-approach-test").
Proof.
  apply (getVariant_leaves_other_tests_alone
           (platform := ExamplePlatform.instance) abTestConfig abTestRegistry
           (1 # 2) "hero-messaging-test" "mission-approach-test" None
           returningVisitor).
  intros H. discriminate H.
Defined.

(** X16: The debug override: outside debug mode [forceVariant] only logs a
    warning and writes nothing; in debug mode, in a browser whose storage
    works, forcing a non-empty id that the test has makes the next
    resolution return a variant with that id, whatever its weight, the
    random draw and the visitor id. *)
Theorem forceVariant_overrides_selection {platform : Platform}
  (abTestConfig : ABTestConfig.t) (abTestRegistry : Registry)
  (testId variantId : string) (e : Env) :
  (ABTestConfig.debugMode abTestConfig = false ->
   forceVariant abTestConfig testId variantId e =
   (Ok tt,
    push_console_warn ("forceVariant only works in debug mode", None) e)) /\
  (forall test rnd userId,
     ABTestConfig.debugMode abTestConfig = true ->
     storage_works e ->
     variantId <> EmptyString ->
     getTestByIdFromRegistry abTestRegistry testId = Some test ->
     ABTest.enabled test = true ->
     ABTestConfig.enabled abTestConfig = true ->
     In variantId (map ABVariant.id (ABTest.variants test)) ->
     exists v e',
       getVariant abTestConfig abTestRegistry rnd testId userId
         (snd (forceVariant abTestConfig testId variantId e))
         = (Ok (Some v), e') /\
       ABVariant.id v = variantId).
Proof.
  split.
  - intros Hoff. unfold forceVariant. by rewrite Hoff.
  - intros test rnd userId Hon (Hw & Hd & Hf) Hne Ht Hen Hcfg Hin.
    assert (Hvalid : isValidVariant test (JS.Str variantId) = true).
    { apply in_map_iff in Hin as (v & <- & Hv). by apply In_isValidVariant. }
    pose proof (storeVariant_then_read abTestConfig testId variantId e
                  Hw Hd Hf Hne) as [Hst Htr].
    assert (Hforced : stored_assignment abTestConfig
                        (snd (forceVariant abTestConfig testId variantId e))
                        testId (JS.Str variantId)).
    { unfold forceVariant. rewrite Hon. simpl. unfold bind.
      destruct (storeVariant abTestConfig testId variantId e)
        as [[[]|x] e1] eqn:Hrun.
      - simpl in *. split; [|done].
        rewrite (getStoredVariant_same_storage abTestConfig testId e1);
          [done|by repeat split].
      - destruct (storeVariant_never_throws abTestConfig testId variantId e)
          as (a & e1' & Hok). rewrite Hrun in Hok. discriminate Hok. }
    destruct (getVariant_stored abTestConfig abTestRegistry rnd testId userId
                test _ _ Ht Hen Hcfg Hforced Hvalid) as (e' & Hrun & _).
    destruct (isValidVariant_getVariantById _ _ Hvalid) as [v Hv].
    exists v, e'. rewrite Hrun, Hv. split; [done|].
    by apply getVariantById_Some in Hv as [_ ?].
Qed.

Lemma forceVariant_overrides_selection_witness :
  exists v e',
    getVariant (platform := ExamplePlatform.instance) debugConfig
      abTestRegistry (1 # 10) "mission-approach-test" None
      (snd (forceVariant (platform := ExamplePlatform.instance) debugConfig
              "mission-approach-test" "aspirational" freshBrowser))
      = (Ok (Some v), e') /\
    ABVariant.id v = "aspirational".
Proof.
  apply (proj2 (forceVariant_overrides_selection
                  (platform := ExamplePlatform.instance) debugConfig
                  abTestRegistry "mission-approach-test" "aspirational"
                  freshBrowser) missionABTest (1 # 10) None).
  - reflexivity.
  - by repeat split.
  - intros H. discriminate H.
  - reflexivity.
  - reflexivity.
  - reflexivity.
  - simpl. right. left. reflexivity.
Defined.

(** X17: A conversion is attributed to the variant the visitor was given:
    after an enabled resolution returned a variant with a non-empty id in
    a browser whose storage works, [trackConversion] and
    [trackInteraction] hand that variant's id to the analytics emitter. *)
Theorem tracking_attributed_to_resolved_variant {platform : Platform}
  (abTestConfig : ABTestConfig.t) (abTestRegistry : Registry)
  (rnd : Q) (testId : string) (userId conversionType : option string)
  (interactionType : string) (metadata : option JS.object)
  (test : ABTest.t) (v : ABVariant.t) (e e1 : Env) :
  getTestByIdFromRegistry abTestRegistry testId = Some test ->
  ABTest.enabled test = true ->
  ABTestConfig.enabled abTestConfig = true ->
  storage_works e ->
  getVariant abTestConfig abTestRegistry rnd testId userId e
    = (Ok (Some v), e1) ->
  ABVariant.id v <> EmptyString ->
  trackConversion abTestConfig testId conversionType metadata e1 =
    trackAnalyticsEvent abTestConfig VARIANT_CONVERSION testId
      (JS.Str (ABVariant.id v))
      (Some (JS.spread
               [("conversion_type", JS.Str (default "default" conversionType))]
               (default [] metadata))) e1 /\
  trackInteraction abTestConfig testId interactionType metadata e1 =
    trackAnalyticsEvent abTestConfig VARIANT_INTERACTION testId
      (JS.Str (ABVariant.id v))
      (Some (JS.spread [("interaction_type", JS.Str interactionType)]
                       (default [] metadata))) e1.
Proof.
  intros Ht Hen Hcfg Hworks Hrun Hid.
  destruct (getVariant_leaves_assignment _ _ _ _ _ _ _ _ _ Ht Hen Hcfg Hworks
              Hrun Hid) as [[Hst Htr] _].
  destruct (getStoredVariant abTestConfig testId e1) as [r e2] eqn:Hg.
  simpl in Hst. subst r.
  pose proof (getStoredVariant_truthy_env _ _ _ _ _ Hg Htr) as ->.
  unfold trackConversion, trackInteraction, bind. rewrite Hg, Htr. done.
Qed.

Lemma tracking_attributed_to_resolved_variant_witness :
  va_calls
    (snd (trackConversion (platform := ExamplePlatform.instance) abTestConfig
            "t" (Some "signup") None
            (snd (getVariant (platform := ExamplePlatform.instance)
                    abTestConfig scenarioRegistry (9 # 10) "t" None
                    freshBrowser)))) =
  [("track", "ab_variant_assigned",
    [("test_id", JS.Str "t"); ("variant_id", JS.Str "B")]);
   ("track", "ab_variant_conversion",
    [("test_id", JS.Str "t"); ("variant_id", JS.Str "B");
     ("conversion_type", JS.Str "signup")])].
Proof.
  assert (Hne : ABVariant.id variantB <> EmptyString)
    by (intros H; discriminate H).
  rewrite (proj1 (tracking_attributed_to_resolved_variant
                    (platform := ExamplePlatform.instance) abTestConfig
                    scenarioRegistry (9 # 10) "t" None (Some "signup") "hover"
                    None scenarioTest variantB freshBrowser
                    (snd (getVariant (platform := ExamplePlatform.instance)
                            abTestConfig scenarioRegistry (9 # 10) "t" None
                            freshBrowser))
                    eq_refl eq_refl eq_refl
                    (conj eq_refl (conj eq_refl eq_refl))
                    eq_refl Hne)).
  vm_compute. reflexivity.
Defined.






(* ================================================================== *)
(** ** The debug accessor                                              *)
(* ================================================================== *)





(* ================================================================== *)
(** ** Rate limiting                                                   *)
(* ================================================================== *)

(** X20: Posting is gated by the entry [<platform>-posts] only: after
    [updateRateLimit] on that entry, [canPost] answers yes exactly when
    the reset time has passed or something remains; limits recorded for
    any other endpoint do not change the answer. *)
Theorem canPost_after_updateRateLimit (platformName endpoint : string)
  (remaining resetTime now : Z) (tracker : gmap string RateLimitInfo.t) :
  fst (BasePlatformAdapter.canPost platformName now
         (BasePlatformAdapter.updateRateLimit (platformName ++ "-posts")
            remaining resetTime tracker))
    = Z.ltb resetTime now || Z.ltb 0 remaining /\
  (endpoint <> platformName ++ "-posts" ->
   fst (BasePlatformAdapter.canPost platformName now
          (BasePlatformAdapter.updateRateLimit endpoint remaining resetTime
             tracker))
     = fst (BasePlatformAdapter.canPost platformName now tracker)).
Proof.
  unfold BasePlatformAdapter.canPost, BasePlatformAdapter.updateRateLimit.
  split.
  - rewrite lookup_insert_eq. simpl. by destruct (Z.ltb resetTime now).
  - intros Hne. rewrite lookup_insert_ne by done.
    destruct (tracker !! (platformName ++ "-posts")) as [rl|]; [|done].
    by destruct (Z.ltb (RateLimitInfo.resetTime rl) now).
Qed.

Lemma canPost_after_updateRateLimit_witness :
  fst (BasePlatformAdapter.canPost "twitter" 1000
         (BasePlatformAdapter.updateRateLimit "twitter-search" 0 5000 ∅))
  = fst (BasePlatformAdapter.canPost "twitter" 1000 ∅).
Proof.
  apply (proj2 (canPost_after_updateRateLimit "twitter" "twitter-search"
                  0 5000 1000 ∅)).
  intros H. discriminate H.
Defined.

(** X21: [canPost] observes expiry by forgetting: once it has seen the reset
    time pass it deletes the entry, so every later call answers yes,
    whatever the clock then reads, until a new limit is recorded; all
    other entries are kept.  Before expiry it changes nothing. *)
Theorem canPost_expiry_forgets_limit (platformName : string)
  (now later : Z) (rateLimit : RateLimitInfo.t)
  (tracker : gmap string RateLimitInfo.t) :
  tracker !! (platformName ++ "-posts") = Some rateLimit ->
  (RateLimitInfo.resetTime rateLimit < now ->
   BasePlatformAdapter.canPost platformName now tracker
     = (true, delete (platformName ++ "-posts") tracker) /\
   BasePlatformAdapter.canPost platformName later
     (snd (BasePlatformAdapter.canPost platformName now tracker))
     = (true, delete (platformName ++ "-posts") tracker)) /\
  (now <= RateLimitInfo.resetTime rateLimit ->
   BasePlatformAdapter.canPost platformName now tracker
     = (Z.ltb 0 (RateLimitInfo.remaining rateLimit), tracker)).
Proof.
  intros Hl. unfold BasePlatformAdapter.canPost. rewrite Hl. split.
  - intros Hexp. apply Z.ltb_lt in Hexp. rewrite Hexp. simpl.
    by rewrite lookup_delete_eq.
  - intros Hnot. apply Z.ltb_ge in Hnot. by rewrite Hnot.
Qed.

Lemma canPost_expiry_forgets_limit_witness :
  BasePlatformAdapter.canPost "twitter" 10
    (snd (BasePlatformAdapter.canPost "twitter" 6000
            (BasePlatformAdapter.updateRateLimit "twitter-posts" 0 5000 ∅)))
  = (true,
     delete "twitter-posts"
       (BasePlatformAdapter.updateRateLimit "twitter-posts" 0 5000 ∅)).
Proof.
  assert (Hl : BasePlatformAdapter.updateRateLimit "twitter-posts" 0 5000 ∅
                 !! ("twitter" ++ "-posts")
               = Some (RateLimitInfo.mk 0 5000 3600))
    by (vm_compute; reflexivity).
  apply (proj1 (canPost_expiry_forgets_limit "twitter" 6000 10
                  (RateLimitInfo.mk 0 5000 3600)
                  (BasePlatformAdapter.updateRateLimit "twitter-posts" 0 5000 ∅)
                  Hl)).
  simpl. lia.
Defined.

(** X22: The wait of [handleRateLimit] ends exactly at the reset time, and at
    that instant [canPost] still answers no, because it asks for the
    clock to be strictly past the reset time; one millisecond later it
    answers yes. *)
Theorem handleRateLimit_wait_ends_at_reset (platformName : string)
  (now waitTime : Z) (tracker : gmap string RateLimitInfo.t) :
  BasePlatformAdapter.handleRateLimit platformName now tracker
    = Some waitTime ->
  0 < waitTime /\
  exists rateLimit,
    tracker !! (platformName ++ "-posts") = Some rateLimit /\
    now + waitTime = RateLimitInfo.resetTime rateLimit /\
    BasePlatformAdapter.canPost platformName (now + waitTime) tracker
      = (false, tracker) /\
    fst (BasePlatformAdapter.canPost platformName (now + waitTime + 1) tracker)
      = true.
Proof.
  unfold BasePlatformAdapter.handleRateLimit, BasePlatformAdapter.canPost.
  destruct (tracker !! (platformName ++ "-posts")) as [rl|]; [|done].
  destruct (Z.leb_spec (RateLimitInfo.remaining rl) 0) as [Hrem|]; [|done].
  destruct (Z.ltb_spec 0 (RateLimitInfo.resetTime rl - now)) as [Hpos|];
    [|done].
  intros [= <-]. split; [done|]. exists rl. split; [done|].
  split; [lia|].
  replace (now + (RateLimitInfo.resetTime rl - now))
    with (RateLimitInfo.resetTime rl) by lia.
  rewrite Z.ltb_irrefl.
  assert (Z.ltb 0 (RateLimitInfo.remaining rl) = false) as -> by lia.
  split; [done|].
  assert (Z.ltb (RateLimitInfo.resetTime rl) (RateLimitInfo.resetTime rl + 1)
          = true) as -> by lia.
  done.
Qed.

Lemma handleRateLimit_wait_ends_at_reset_witness :
  0 < 4000 /\
  exists rateLimit,
    BasePlatformAdapter.updateRateLimit "twitter-posts" 0 5000 ∅
      !! ("twitter" ++ "-posts") = Some rateLimit /\
    1000 + 4000 = RateLimitInfo.resetTime rateLimit /\
    BasePlatformAdapter.canPost "twitter" (1000 + 4000)
      (BasePlatformAdapter.updateRateLimit "twitter-posts" 0 5000 ∅)
      = (false, BasePlatformAdapter.updateRateLimit "twitter-posts" 0 5000 ∅) /\
    fst (BasePlatformAdapter.canPost "twitter" (1000 + 4000 + 1)
           (BasePlatformAdapter.updateRateLimit "twitter-posts" 0 5000 ∅))
      = true.
Proof.
  apply (handleRateLimit_wait_ends_at_reset "twitter" 1000 4000
           (BasePlatformAdapter.updateRateLimit "twitter-posts" 0 5000 ∅)).
  vm_compute. reflexivity.
Defined.

(* ================================================================== *)
(** ** Unallocated traffic                                             *)
(* ================================================================== *)




